(** * holo-build: the build orchestrator and the RPM and Pacman generators

  A shallow embedding of [src/holo-build/common/build.go],
  [src/holo-build/rpm/generator.go] and of the two revisions of the Pacman
  generator, followed by the properties of the package-build pipeline that
  are established on it.

  Go strings are byte strings: they are modelled as [string] (a list of
  8-bit [ascii]).  [uint] fields are [N]; no arithmetic is done on them.
  The package is a pointer in the source and is mutated in place: every
  function that mutates it returns the new package. *)

From Stdlib Require Import String Ascii List ZArith NArith DecimalString Lia.
From Stdlib Require Import Sorted Permutation Strings.Byte.
From stdpp Require Import gmap strings list sorting.
From Equations Require Import Equations.

Set Warnings "-register-all".
Set Default Proof Using "Type".



(** ** The parts of Go's standard library that the sources use *)

Module gostrings.

(** [strings.HasPrefix(s, prefix)]. *)
Definition HasPrefix (s prefix : string) : bool := String.prefix prefix s.

(** [strings.TrimPrefix(s, prefix)]. *)
Definition TrimPrefix (s prefix : string) : string :=
  if HasPrefix s prefix
  then substring (String.length prefix) (String.length s - String.length prefix) s
  else s.

(** [strings.Split(s, sep)] for a separator of one byte, which is the only
    way the sources call it (with ["/"]).  The result is never empty. *)
Fixpoint Split (s : string) (sep : ascii) : list string :=
  match s with
  | EmptyString => [EmptyString]
  | String c rest =>
      if Ascii.eqb c sep then EmptyString :: Split rest sep
      else match Split rest sep with
           | [] => [String c EmptyString]
           | part :: parts => String c part :: parts
           end
  end.

(** [strings.Replace(s, old, new, -1)] for [old] and [new] of one byte each
    (the sources replace ["-"] by ["_"]). *)
Fixpoint Replace (s : string) (old new : ascii) : string :=
  match s with
  | EmptyString => EmptyString
  | String c rest =>
      String (if Ascii.eqb c old then new else c) (Replace rest old new)
  end.

(** [strings.Join(elems, "")]. *)
Fixpoint Join (elems : list string) : string :=
  match elems with
  | [] => EmptyString
  | e :: rest => e +:+ Join rest
  end.

(** [strings.ContainsAny(s, chars)]. *)
Fixpoint ContainsAny (s : string) (chars : list ascii) : bool :=
  match s with
  | EmptyString => false
  | String c rest =>
      existsb (Ascii.eqb c) chars || ContainsAny rest chars
  end.

(** The ASCII white space of [unicode.IsSpace]: tab, line feed, vertical
    tab, form feed, carriage return and space. *)
Definition isSpace (c : ascii) : bool :=
  let n := nat_of_ascii c in
  ((9 <=? n)%nat && (n <=? 13)%nat) || (n =? 32)%nat.

Fixpoint trimLeft (s : string) : string :=
  match s with
  | EmptyString => EmptyString
  | String c rest => if isSpace c then trimLeft rest else s
  end.

Fixpoint trimRight (s : string) : string :=
  match s with
  | EmptyString => EmptyString
  | String c rest =>
      match trimRight rest with
      | EmptyString => if isSpace c then EmptyString else String c EmptyString
      | rest' => String c rest'
      end
  end.

(** [strings.TrimSpace(s)], on ASCII white space. *)
Definition TrimSpace (s : string) : string := trimRight (trimLeft s).

(** The white space of the regular expression [\s]: tab, line feed, form
    feed, carriage return and space (no vertical tab). *)
Definition isRegexpSpace (c : ascii) : bool :=
  let n := nat_of_ascii c in
  (n =? 9)%nat || (n =? 10)%nat || (n =? 12)%nat || (n =? 13)%nat || (n =? 32)%nat.

(** [regexp.MustCompile(`\s+`).ReplaceAllString(s, " ")]: every maximal run
    of white space becomes one space.  [inRun] tells whether the previous
    byte was white space. *)
Fixpoint collapseSpace (inRun : bool) (s : string) : string :=
  match s with
  | EmptyString => EmptyString
  | String c rest =>
      if isRegexpSpace c
      then (if inRun then collapseSpace true rest
            else String " "%char (collapseSpace true rest))
      else String c (collapseSpace false rest)
  end.

(** [fmt.Sprintf("%d", n)] for an unsigned integer. *)
Definition itoa (n : N) : string := NilZero.string_of_uint (N.to_uint n).

(** [fmt.Sprintf("%d", n)] for a signed integer. *)
Definition itoaZ (n : Z) : string := NilZero.string_of_int (Z.to_int n).

End gostrings.

Module gosort.

(** [sort.Strings(a)]: [a] in increasing byte-wise lexicographic order.
    Equal strings cannot be told apart, so the result does not depend on
    the sorting algorithm; merge sort computes it here. *)
Definition Strings (a : list string) : list string := merge_sort String.le a.

End gosort.

(** ** Package [common]: the package model *)

Module common.

Inductive Architecture :=
| ArchitectureAny
| ArchitectureI386
| ArchitectureX86_64
| ArchitectureARMv5
| ArchitectureARMv6h
| ArchitectureARMv7h
| ArchitectureAArch64.

(** A relation to another package.  The sources only ever read or set
    [RelatedPackage]; the optional version constraint (operator and
    value) is carried along. *)
Record PackageRelation := {
  RelatedPackage : string;
  Constraint : option (string * string)
}.

(** An owner or a group is given by numeric id or by name. *)
Inductive IntOrString :=
| ById (id : N)
| ByName (name : string).

(** [FSNodeMetadata]; [None] is the nil pointer, "not specified". *)
Record FSNodeMetadata := {
  Mode : N;
  Owner : option IntOrString;
  Group : option IntOrString
}.

(** The filesystem tree.  [Entries] is a Go map; it is kept as an
    association list in the order in which the tree walk visits the
    children, since that order decides the order of the generated
    script lines. *)
Inductive FSNode :=
| FSDirectory (Entries : list (string * FSNode)) (Metadata : FSNodeMetadata)
| FSRegularFile (Content : string) (Metadata : FSNodeMetadata)
| FSSymlink (Target : string).

(** Induction on the tree: a property of all children of a directory gives
    it for the directory. *)
Fixpoint FSNode_tree_ind (P : FSNode -> Prop)
    (Hdir : forall entries m,
        Forall (fun entry => P (snd entry)) entries -> P (FSDirectory entries m))
    (Hfile : forall content m, P (FSRegularFile content m))
    (Hlink : forall target, P (FSSymlink target))
    (node : FSNode) : P node :=
  match node with
  | FSDirectory entries m =>
      Hdir entries m
        ((fix all (entries : list (string * FSNode))
            : Forall (fun entry => P (snd entry)) entries :=
            match entries with
            | [] => Forall_nil_2 _
            | entry :: rest =>
                Forall_cons_2 _ entry rest
                  (FSNode_tree_ind P Hdir Hfile Hlink (snd entry)) (all rest)
            end) entries)
  | FSRegularFile content m => Hfile content m
  | FSSymlink target => Hlink target
  end.

(** The entry types of the flat [FSEntries] list of the older revision. *)
Inductive FSEntryType :=
| FSEntryTypeRegular
| FSEntryTypeDirectory
| FSEntryTypeSymlink.

Record FSEntry := {
  Type_ : FSEntryType;
  Path : string
}.

(** The package.  [FSRoot] is the filesystem tree of the newer revision
    of the sources ([build.go], the in-memory Pacman generator);
    [FSEntries] is the flat list of the older one, which only the
    filesystem-rooted Pacman generator reads.  [Architecture_] and [Type_]
    are the fields [Architecture] and [Type]. *)
Record Package := {
  Name : string;
  Version : string;
  Release : N;
  Epoch : N;
  Description : string;
  Author : string;
  Architecture_ : Architecture;
  Requires : list PackageRelation;
  Provides : list PackageRelation;
  Conflicts : list PackageRelation;
  Replaces : list PackageRelation;
  SetupScript : string;
  CleanupScript : string;
  FSRoot : FSNode;
  FSEntries : list FSEntry
}.

(** The errors of the build: the sentinel that a generator returns when it
    cannot build in memory, and every other error. *)
Inductive error :=
| UnsupportedBuildMethodError
| OtherError (msg : string).

(** The line feed, which ends every generated line. *)
Definition LF : string := String (ascii_of_nat 10) EmptyString.

(** Assignments to the fields of [*Package] that the build mutates. *)
Definition setRequires (pkg : Package) (requires : list PackageRelation) : Package :=
  {| Name := Name pkg; Version := Version pkg; Release := Release pkg;
     Epoch := Epoch pkg; Description := Description pkg; Author := Author pkg;
     Architecture_ := Architecture_ pkg; Requires := requires;
     Provides := Provides pkg; Conflicts := Conflicts pkg;
     Replaces := Replaces pkg; SetupScript := SetupScript pkg;
     CleanupScript := CleanupScript pkg; FSRoot := FSRoot pkg;
     FSEntries := FSEntries pkg |}.

Definition setSetupScript (pkg : Package) (script : string) : Package :=
  {| Name := Name pkg; Version := Version pkg; Release := Release pkg;
     Epoch := Epoch pkg; Description := Description pkg; Author := Author pkg;
     Architecture_ := Architecture_ pkg; Requires := Requires pkg;
     Provides := Provides pkg; Conflicts := Conflicts pkg;
     Replaces := Replaces pkg; SetupScript := script;
     CleanupScript := CleanupScript pkg; FSRoot := FSRoot pkg;
     FSEntries := FSEntries pkg |}.

Definition setCleanupScript (pkg : Package) (script : string) : Package :=
  {| Name := Name pkg; Version := Version pkg; Release := Release pkg;
     Epoch := Epoch pkg; Description := Description pkg; Author := Author pkg;
     Architecture_ := Architecture_ pkg; Requires := Requires pkg;
     Provides := Provides pkg; Conflicts := Conflicts pkg;
     Replaces := Replaces pkg; SetupScript := SetupScript pkg;
     CleanupScript := script; FSRoot := FSRoot pkg;
     FSEntries := FSEntries pkg |}.

Definition setArchitecture (pkg : Package) (arch : Architecture) : Package :=
  {| Name := Name pkg; Version := Version pkg; Release := Release pkg;
     Epoch := Epoch pkg; Description := Description pkg; Author := Author pkg;
     Architecture_ := arch; Requires := Requires pkg;
     Provides := Provides pkg; Conflicts := Conflicts pkg;
     Replaces := Replaces pkg; SetupScript := SetupScript pkg;
     CleanupScript := CleanupScript pkg; FSRoot := FSRoot pkg;
     FSEntries := FSEntries pkg |}.

Definition setFSRoot (pkg : Package) (root : FSNode) : Package :=
  {| Name := Name pkg; Version := Version pkg; Release := Release pkg;
     Epoch := Epoch pkg; Description := Description pkg; Author := Author pkg;
     Architecture_ := Architecture_ pkg; Requires := Requires pkg;
     Provides := Provides pkg; Conflicts := Conflicts pkg;
     Replaces := Replaces pkg; SetupScript := SetupScript pkg;
     CleanupScript := CleanupScript pkg; FSRoot := root;
     FSEntries := FSEntries pkg |}.

(** [text] has the line [line]: after a line feed, and ended by one. *)
Definition hasLine (line text : string) : Prop :=
  exists before after : string, text = before +:+ LF +:+ line +:+ LF +:+ after.

(** The type test [node.( *FSRegularFile)]. *)
Definition isRegularFile (node : FSNode) : bool :=
  match node with
  | FSRegularFile _ _ => true
  | FSDirectory _ _ => false
  | FSSymlink _ => false
  end.

(** *** The tree walk *)

(** The tree walk is not among the sources ([FSNode.Walk],
    [Package.WalkFSWithRelativePaths], [Package.WalkFSWithAbsolutePaths]).
    A walk calls the callback on a node and then walks the children of a
    directory; it is given here by the list of the calls it makes, in
    order.  Relative paths have no leading slash and the root has the empty
    one; the absolute path of a node is its relative path after a slash. *)

(** Modelled from the spec: the relative path of the child [name] of the
    directory at [path]. *)
Definition childPath (path name : string) : string :=
  if String.eqb path "" then name else path +:+ "/" +:+ name.

(** Modelled from the spec: [FSNode.Walk], as the list of the calls of
    the callback. *)
Fixpoint Walk (path : string) (node : FSNode) : list (string * FSNode) :=
  (path, node) ::
  match node with
  | FSDirectory entries _ =>
      flat_map (fun entry : string * FSNode =>
                  let (name, child) := entry in Walk (childPath path name) child)
               entries
  | FSRegularFile _ _ => []
  | FSSymlink _ => []
  end.

(** Modelled from the spec: [Package.WalkFSWithRelativePaths]. *)
Definition WalkFSWithRelativePaths (pkg : Package) : list (string * FSNode) :=
  Walk "" (FSRoot pkg).

(** Modelled from the spec: a call of the callback with the absolute path
    in place of the relative one. *)
Definition absolute (visit : string * FSNode) : string * FSNode :=
  ("/" +:+ fst visit, snd visit).

(** Modelled from the spec: [Package.WalkFSWithAbsolutePaths]. *)
Definition WalkFSWithAbsolutePaths (pkg : Package) : list (string * FSNode) :=
  map absolute (WalkFSWithRelativePaths pkg).

(** *** The backup markers that a package is to get *)

(** The marker of a file, from its absolute path. *)
Definition backupMarker (path : string) : string :=
  "backup = " +:+ gostrings.TrimPrefix path "/" +:+ LF.

(** The files that get a marker: regular files outside the provisioning
    prefix. *)
Definition keepsBackup (visit : string * FSNode) : bool :=
  isRegularFile (snd visit) && negb (gostrings.HasPrefix (fst visit) "/usr/share/holo/").

Definition entryKeepsBackup (entry : FSEntry) : bool :=
  match Type_ entry with
  | FSEntryTypeRegular => negb (gostrings.HasPrefix (Path entry) "/usr/share/holo/")
  | _ => false
  end.

(** *** [doMagicalHoloIntegration] *)

(** The callback of the walk: [plugins[pathParts[4]] = true] for a path
    under the provisioning prefix.  The Go map [plugins] is used as a set. *)
Definition notePlugin (plugins : gset string) (visit : string * FSNode) : gset string :=
  let path := fst visit in
  if gostrings.HasPrefix path "/usr/share/holo/" then
    let pathParts := gostrings.Split path "/"%char in
    if (4 <? length pathParts)%nat
    then {[ nth 4 pathParts "" ]} ∪ plugins
    else plugins
  else plugins.

Definition collectPlugins (pkg : Package) : gset string :=
  foldl notePlugin ∅ (WalkFSWithAbsolutePaths pkg).

(** The body of the loop over the plugin ids. *)
Definition requirePlugin (requires : list PackageRelation) (pluginID : string)
  : list PackageRelation :=
  let depName := "holo-" +:+ pluginID in
  let hasDep := existsb (fun rel => String.eqb (RelatedPackage rel) depName) requires in
  if negb hasDep
  then requires ++ [{| RelatedPackage := depName; Constraint := None |}]
  else requires.

(** [for pluginID := range plugins] visits every key of the map once, in an
    order that Go leaves unspecified and that its runtime varies from run
    to run.  [rangeOrder] is the order of this run. *)
Definition doMagicalHoloIntegration (rangeOrder : gset string -> list string)
    (pkg : Package) : Package :=
  let plugins := collectPlugins pkg in
  if (size plugins =? 0)%nat then pkg
  else
    let pkg1 := setRequires pkg (foldl requirePlugin (Requires pkg) (rangeOrder plugins)) in
    let pkg2 := setSetupScript pkg1 ("holo apply" +:+ LF +:+ SetupScript pkg1) in
    setCleanupScript pkg2 ("holo apply" +:+ LF +:+ CleanupScript pkg2).

(** The orders that [range] may take: the permutations of the keys. *)
Definition validRangeOrder (rangeOrder : gset string -> list string) : Prop :=
  forall plugins : gset string, Permutation (rangeOrder plugins) (elements plugins).

(** *** [postponeUnmaterializableFSMetadata] *)

(** The name of an owner or group that is given by name. *)
Definition symbolicName (who : option IntOrString) : option string :=
  match who with
  | Some (ByName name) => Some name
  | Some (ById _) => None
  | None => None
  end.

Definition stripSymbolic (who : option IntOrString) : option IntOrString :=
  match symbolicName who with
  | Some _ => None
  | None => who
  end.

(** Modelled from the spec: [FSNodeMetadata.PostponeUnmaterializable], which
    is not among the sources.  An owner or group given by name is removed
    from the metadata, and one [chown] line (symbolic owner, colon,
    symbolic group, path) is returned for the node; nothing is done and
    nothing is returned when neither is given by name. *)
Definition PostponeUnmaterializable (m : FSNodeMetadata) (path : string)
  : string * FSNodeMetadata :=
  match symbolicName (Owner m), symbolicName (Group m) with
  | None, None => ("", m)
  | owner, group =>
      ("chown " +:+ default "" owner +:+ ":" +:+ default "" group +:+ " " +:+ path +:+ LF,
       {| Mode := Mode m;
          Owner := stripSymbolic (Owner m);
          Group := stripSymbolic (Group m) |})
  end.

(** The walk of [postponeUnmaterializableFSMetadata] with its callback: the
    script lines collected at and below [node], whose relative path is
    [path], and [node] as the callback leaves it.  Directories and regular
    files have metadata, symlinks do not. *)
Fixpoint postponeWalk (path : string) (node : FSNode) : string * FSNode :=
  match node with
  | FSDirectory entries m =>
      let (script, m') := PostponeUnmaterializable m ("/" +:+ path) in
      let below :=
        (fix children (entries : list (string * FSNode))
           : string * list (string * FSNode) :=
           match entries with
           | [] => ("", [])
           | (name, child) :: rest =>
               let (script1, child') := postponeWalk (childPath path name) child in
               let (script2, rest') := children rest in
               (script1 +:+ script2, (name, child') :: rest')
           end) entries in
      (script +:+ fst below, FSDirectory (snd below) m')
  | FSRegularFile content m =>
      let (script, m') := PostponeUnmaterializable m ("/" +:+ path) in
      (script, FSRegularFile content m')
  | FSSymlink _ => ("", node)
  end.

Definition postponeUnmaterializableFSMetadata (pkg : Package) : Package :=
  let (additionalSetupScript, root) := postponeWalk "" (FSRoot pkg) in
  let pkg1 := setFSRoot pkg root in
  setSetupScript pkg1 (additionalSetupScript +:+ SetupScript pkg1).

(** *** What the Holo integration is to achieve *)

(** [path] lies under the provisioning prefix with the plugin id
    [pluginID]: it is ["/usr/share/holo/"], then the id, which has no
    slash, and then nothing or a slash and more. *)
Definition underPlugin (pluginID path : string) : Prop :=
  gostrings.ContainsAny pluginID ["/"%char] = false
  /\ exists rest : string,
       path = "/usr/share/holo/" +:+ pluginID +:+ rest
       /\ (rest = "" \/ exists more : string, rest = "/" +:+ more).

(** The package has a node under the provisioning prefix with that plugin
    id. *)
Definition hasPlugin (pkg : Package) (pluginID : string) : Prop :=
  exists visit : string * FSNode,
    In visit (WalkFSWithAbsolutePaths pkg) /\ underPlugin pluginID (fst visit).

(** The number of relations to the package [name]. *)
Definition countNamed (name : string) (rels : list PackageRelation) : nat :=
  length (List.filter (fun rel => String.eqb (RelatedPackage rel) name) rels).

(** *** What the deferral of symbolic ownership is to achieve *)

(** The metadata of a node; symlinks have none. *)
Definition metadataOf (node : FSNode) : option FSNodeMetadata :=
  match node with
  | FSDirectory _ m => Some m
  | FSRegularFile _ m => Some m
  | FSSymlink _ => None
  end.

(** The metadata names its owner or its group. *)
Definition hasSymbolicOwnership (m : FSNodeMetadata) : bool :=
  match symbolicName (Owner m), symbolicName (Group m) with
  | None, None => false
  | _, _ => true
  end.

(** The nodes whose ownership is deferred: directories and regular files
    whose owner or group is given by name. *)
Definition deferred (visit : string * FSNode) : bool :=
  match metadataOf (snd visit) with
  | Some m => hasSymbolicOwnership m
  | None => false
  end.

(** The ownership-fixup line of a visited node. *)
Definition chownLine (visit : string * FSNode) : string :=
  match metadataOf (snd visit) with
  | Some m =>
      "chown " +:+ default "" (symbolicName (Owner m)) +:+ ":"
      +:+ default "" (symbolicName (Group m)) +:+ " " +:+ fst visit +:+ LF
  | None => ""
  end.

Definition stripMetadata (m : FSNodeMetadata) : FSNodeMetadata :=
  {| Mode := Mode m; Owner := stripSymbolic (Owner m); Group := stripSymbolic (Group m) |}.

(** The tree with every symbolic owner and group removed, and nothing else
    changed. *)
Fixpoint stripTree (node : FSNode) : FSNode :=
  match node with
  | FSDirectory entries m =>
      FSDirectory (map (fun entry : string * FSNode =>
                          let (name, child) := entry in (name, stripTree child))
                       entries)
                  (stripMetadata m)
  | FSRegularFile content m => FSRegularFile content (stripMetadata m)
  | FSSymlink target => FSSymlink target
  end.

(** The lines that the walk below [path] collects: one per deferred node,
    with its absolute path, in the order of the walk. *)
Definition chownLines (path : string) (node : FSNode) : string :=
  gostrings.Join (map chownLine (List.filter deferred (map absolute (Walk path node)))).

(** *** The collaborators of the orchestrator *)

(** The [Generator] interface as [Package.Build] uses it.  A generator gets
    the package by pointer and may run external tools, so its two build
    methods return the package and the world as they leave them. *)
Module Generator.
Record t (World : Type) := {
  Validate : Package -> list error;
  BuildInMemory : Package -> bool -> World -> (list byte * option error) * (Package * World);
  Build : Package -> string -> bool -> World -> (list byte * option error) * (Package * World);
  RecommendedFileName : Package -> string
}.
Arguments Validate {World}.
Arguments BuildInMemory {World}.
Arguments Build {World}.
Arguments RecommendedFileName {World}.
End Generator.

(** The operating system as [Package.Build] uses it: [os.RemoveAll],
    [FSRoot.Materialize], [filepath.Walk] (the paths below a root in the
    order of the walk, each with the error of reaching it),
    [ResetTimestamp], [os.Stdout.Write] and [ioutil.WriteFile].  No
    assumption is made on what they do to the world. *)
Module System.
Record t (World : Type) := {
  RemoveAll : string -> World -> option error * World;
  Materialize : FSNode -> string -> World -> option error * World;
  FilepathWalk : string -> World -> list (string * option error);
  ResetTimestamp : string -> World -> option error * World;
  StdoutWrite : list byte -> World -> option error * World;
  WriteFile : string -> list byte -> N -> World -> option error * World
}.
Arguments RemoveAll {World}.
Arguments Materialize {World}.
Arguments FilepathWalk {World}.
Arguments ResetTimestamp {World}.
Arguments StdoutWrite {World}.
Arguments WriteFile {World}.
End System.

(** The calls that [Package.Build] makes to its collaborators.  A run
    records each call with the error it returned ([None] for [nil]). *)
Inductive Call :=
| CallBuildInMemory (buildReproducibly : bool)
| CallRemoveAll (path : string)
| CallMaterialize (rootPath : string)
| CallWalkFunc (path : string)
| CallResetTimestamp (path : string)
| CallBuild (rootPath : string) (buildReproducibly : bool)
| CallStdoutWrite (pkgBytes : list byte)
| CallWriteFile (pkgFile : string) (pkgBytes : list byte) (perm : N).

Definition Event : Type := Call * option error.

(** The calls of the filesystem-rooted build strategy. *)
Definition isFallbackCall (c : Call) : bool :=
  match c with
  | CallRemoveAll _ | CallMaterialize _ | CallWalkFunc _
  | CallResetTimestamp _ | CallBuild _ _ => true
  | CallBuildInMemory _ | CallStdoutWrite _ | CallWriteFile _ _ _ => false
  end.

(** The calls of the walk function of [materializeFSEntries]. *)
Definition isWalkCall (c : Call) : bool :=
  match c with
  | CallWalkFunc _ | CallResetTimestamp _ => true
  | _ => false
  end.

(** The calls that write the finished package. *)
Definition isOutputCall (c : Call) : bool :=
  match c with
  | CallStdoutWrite _ | CallWriteFile _ _ _ => true
  | _ => false
  end.

(** The call that writes [pkgBytes]: to the standard output, or to
    [pkgFile] with the permissions [0666]. *)
Definition outputCall (printToStdout : bool) (pkgFile : string) (pkgBytes : list byte)
  : Call :=
  if printToStdout then CallStdoutWrite pkgBytes
  else CallWriteFile pkgFile pkgBytes 438.

(** Calls that all returned no error. *)
Definition succeeded (events : list Event) : Prop :=
  Forall (fun ev : Event => snd ev = None) events.

(** The calls of a walk that resets the timestamp of every path. *)
Definition resetsOf (visits : list (string * option error)) : list Event :=
  flat_map (fun visit : string * option error =>
              [(CallWalkFunc (fst visit), None); (CallResetTimestamp (fst visit), None)])
           visits.

(** The calls of a filesystem-rooted build in which nothing fails: the
    root directory is removed, the tree is materialized, the walk resets
    timestamps, the generator builds, the root directory is removed. *)
Definition successfulFallback (rootPath : string) (buildReproducibly : bool)
    (resets : list Event) : list Event :=
  [(CallRemoveAll rootPath, None); (CallMaterialize rootPath, None)]
  ++ resets
  ++ [(CallBuild rootPath buildReproducibly, None); (CallRemoveAll rootPath, None)].

Record State (World : Type) := {
  pkg : Package;
  world : World;
  trace : list Event
}.
Arguments pkg {World}.
Arguments world {World}.
Arguments trace {World}.

(** How a function of the orchestrator ends: it goes on with a value, or it
    returns the error. *)
Inductive result (A : Type) :=
| Done (a : A)
| Abort (e : error).
Arguments Done {A}.
Arguments Abort {A}.

(** What a run of the walk function emits: calls of the walk only, all
    successful if the walk goes on, and all successful but the last, which
    returned the error, if the walk returns an error. *)
Definition walkRun (r : result unit) (events : list Event) : Prop :=
  Forall (fun ev : Event => isWalkCall (fst ev) = true) events
  /\ match r with
     | Done _ => succeeded events
     | Abort e =>
         exists before c, events = before ++ [(c, Some e)] /\ succeeded before
     end.

Section Orchestrator.
Context {World : Type}.

Definition M (A : Type) : Type := State World -> result A * State World.

Definition ret {A : Type} (a : A) : M A := fun st => (Done a, st).

Definition abort {A : Type} (e : error) : M A := fun st => (Abort e, st).

Definition bind {A B : Type} (m : M A) (k : A -> M B) : M B :=
  fun st =>
    match m st with
    | (Done a, st') => k a st'
    | (Abort e, st') => (Abort e, st')
    end.

Local Notation "x <- m ;; k" := (bind m (fun x => k))
  (at level 100, m at next level, right associativity).
Local Notation "m ;; k" := (bind m (fun _ => k))
  (at level 100, right associativity).

Definition getPkg : M Package := fun st => (Done (pkg st), st).

Definition getWorld : M World := fun st => (Done (world st), st).

(** A method of [*Package] that mutates the package. *)
Definition update (f : Package -> Package) : M unit :=
  fun st => (Done tt, {| pkg := f (pkg st); world := world st; trace := trace st |}).

Definition record (ev : Event) : M unit :=
  fun st => (Done tt, {| pkg := pkg st; world := world st; trace := trace st ++ [ev] |}).

(** A call to the operating system followed by
    [if err != nil { return err }]. *)
Definition system (c : Call) (op : World -> option error * World) : M unit :=
  fun st =>
    let (err, w) := op (world st) in
    let st' := {| pkg := pkg st; world := w; trace := trace st ++ [(c, err)] |} in
    match err with
    | Some e => (Abort e, st')
    | None => (Done tt, st')
    end.

(** A call to a build method of the generator; the error is handed to the
    caller. *)
Definition generate (c : Call)
    (method : Package -> World -> (list byte * option error) * (Package * World))
  : M (list byte * option error) :=
  fun st =>
    let '((pkgBytes, err), (pkg', w)) := method (pkg st) (world st) in
    (Done (pkgBytes, err), {| pkg := pkg'; world := w; trace := trace st ++ [(c, err)] |}).

(** The walk function that [materializeFSEntries] gives to
    [filepath.Walk], called on the paths of the walk until it returns an
    error. *)
Fixpoint resetTimestamps (sys : System.t World) (visits : list (string * option error))
  : M unit :=
  match visits with
  | [] => ret tt
  | (path, err) :: rest =>
      record (CallWalkFunc path, err) ;;
      match err with
      | Some e => abort e
      | None =>
          system (CallResetTimestamp path) (System.ResetTimestamp sys path) ;;
          resetTimestamps sys rest
      end
  end.

Definition materializeFSEntries (sys : System.t World) (rootPath : string)
    (buildReproducibly : bool) : M unit :=
  p <- getPkg ;;
  system (CallMaterialize rootPath) (System.Materialize sys (FSRoot p) rootPath) ;;
  if buildReproducibly then
    w <- getWorld ;;
    resetTimestamps sys (System.FilepathWalk sys rootPath w)
  else ret tt.

(** The root directory of the filesystem-rooted build. *)
Definition rootPathOf (p : Package) : string :=
  "./holo-build-" +:+ Name p +:+ "-" +:+ Version p.

Definition DQUOTE : string := String (ascii_of_nat 34) EmptyString.

(** The bytes of ["/ \t\r\n"]. *)
Definition pathSeparatorsAndSpace : list ascii :=
  ["/"%char; " "%char; ascii_of_nat 9; ascii_of_nat 13; ascii_of_nat 10].

(** The package as the first two statements of [Package.Build] leave it. *)
Definition preprocess (rangeOrder : gset string -> list string) (p : Package) : Package :=
  postponeUnmaterializableFSMetadata (doMagicalHoloIntegration rangeOrder p).

(** The block of [Package.Build] under
    [if err == UnsupportedBuildMethodError]: the build from a materialized
    filesystem tree. *)
Definition fallback (sys : System.t World) (generator : Generator.t World)
    (rootPath : string) (buildReproducibly : bool) : M (list byte) :=
  system (CallRemoveAll rootPath) (System.RemoveAll sys rootPath) ;;
  materializeFSEntries sys rootPath buildReproducibly ;;
  built <- generate (CallBuild rootPath buildReproducibly)
             (fun p => Generator.Build generator p rootPath buildReproducibly) ;;
  match built with
  | (_, Some e) => abort e
  | (pkgBytes, None) =>
      system (CallRemoveAll rootPath) (System.RemoveAll sys rootPath) ;;
      ret pkgBytes
  end.

(** The end of [Package.Build]: the package is written to the standard
    output or to the working directory. *)
Definition output (sys : System.t World) (generator : Generator.t World)
    (printToStdout : bool) (pkgBytes : list byte) : M unit :=
  if printToStdout then
    system (CallStdoutWrite pkgBytes) (System.StdoutWrite sys pkgBytes)
  else
    p <- getPkg ;;
    let pkgFile := Generator.RecommendedFileName generator p in
    if gostrings.ContainsAny pkgFile pathSeparatorsAndSpace then
      abort (OtherError ("Unexpected filename generated: " +:+ DQUOTE +:+ pkgFile +:+ DQUOTE))
    else
      system (CallWriteFile pkgFile pkgBytes 438)
             (System.WriteFile sys pkgFile pkgBytes 438).

(** [Package.Build]. *)
Definition Build (rangeOrder : gset string -> list string) (sys : System.t World)
    (generator : Generator.t World) (printToStdout buildReproducibly : bool) : M unit :=
  update (doMagicalHoloIntegration rangeOrder) ;;
  update postponeUnmaterializableFSMetadata ;;
  attempt <- generate (CallBuildInMemory buildReproducibly)
               (fun p => Generator.BuildInMemory generator p buildReproducibly) ;;
  pkgBytes <-
    match attempt with
    | (_, Some (OtherError msg)) => abort (OtherError msg)
    | (_, Some UnsupportedBuildMethodError) =>
        p <- getPkg ;;
        fallback sys generator (rootPathOf p) buildReproducibly
    | (pkgBytes, None) => ret pkgBytes
    end ;;
  output sys generator printToStdout pkgBytes.

(** The state in which a build of [p] starts. *)
Definition start (p : Package) (w : World) : State World :=
  {| pkg := p; world := w; trace := [] |}.

End Orchestrator.

End common.

(** ** Package [rpm]: the RPM generator *)

Module rpm.
Import common.

(** Source for this data: [grep arch_canon /usr/lib/rpm/rpmrc]. *)
Definition archMap (arch : Architecture) : string :=
  match arch with
  | ArchitectureAny => "noarch"
  | ArchitectureI386 => "i686"
  | ArchitectureX86_64 => "x86_64"
  | ArchitectureARMv5 => "armv5tl"
  | ArchitectureARMv6h => "armv6hl"
  | ArchitectureARMv7h => "armv7hl"
  | ArchitectureAArch64 => "aarch64"
  end.

Definition archIDMap (arch : Architecture) : N :=
  match arch with
  | ArchitectureAny => 0
  | ArchitectureI386 => 1
  | ArchitectureX86_64 => 1
  | ArchitectureARMv5 => 12
  | ArchitectureARMv6h => 12
  | ArchitectureARMv7h => 12
  | ArchitectureAArch64 => 12
  end%N.

(** [Generator.Validate]: [return nil]. *)
Definition Validate (pkg : Package) : list error := [].

Definition versionString (pkg : Package) : string :=
  if (0 <? Epoch pkg)%N
  then gostrings.itoa (Epoch pkg) +:+ ":" +:+ Version pkg
  else Version pkg.

Definition fullVersionString (pkg : Package) : string :=
  versionString pkg +:+ "-" +:+ gostrings.itoa (Release pkg).

Definition RecommendedFileName (pkg : Package) : string :=
  Name pkg +:+ "-" +:+ fullVersionString pkg +:+ "." +:+ archMap (Architecture_ pkg) +:+ ".rpm".

(** The encoders of the four regions are not among the sources; [Build] is
    given for any of them.  [LeadBinary pkg] is [NewLead(pkg).ToBinary()]. *)
Class Encoders := {
  Payload : Type;
  Binary : Payload -> list byte;
  MakePayload : Package -> result Payload;
  MakeHeaderSection : Package -> Payload -> list byte;
  MakeSignatureSection : list byte -> Payload -> list byte;
  LeadBinary : Package -> list byte
}.

Definition inspect {A : Type} (a : A) : {b : A | a = b} := exist _ a eq_refl.

Lemma padding_decreases (n : nat) :
  (n mod 8 =? 0)%nat = false ->
  ((8 - (n + 1) mod 8) mod 8 < (8 - n mod 8) mod 8)%nat.
Proof.
  intros Hne. apply Nat.eqb_neq in Hne.
  pose proof (Nat.mod_upper_bound n 8 ltac:(lia)) as Hlt.
  pose proof (Nat.div_mod_eq n 8) as Hdiv.
  destruct (Nat.eq_dec (n mod 8) 7) as [E|E].
  - replace (n + 1)%nat with (0 + (n / 8 + 1) * 8)%nat by lia.
    rewrite Nat.Div0.mod_add, E. simpl. lia.
  - replace (n + 1)%nat with ((n mod 8 + 1) + (n / 8) * 8)%nat by lia.
    rewrite Nat.Div0.mod_add, (Nat.mod_small (n mod 8 + 1)) by lia.
    rewrite (Nat.mod_small (8 - (n mod 8 + 1))), (Nat.mod_small (8 - n mod 8)) by lia.
    lia.
Qed.

#[local] Obligation Tactic := idtac.

(** The loop [for len(result)%8 != 0 { result = append(result, 0x00) }].
    It ends: the distance to the next multiple of 8 decreases. *)
Equations alignTo8Byte (result : list byte) : list byte
  by wf ((8 - length result mod 8) mod 8)%nat lt :=
alignTo8Byte result with inspect (length result mod 8 =? 0)%nat := {
  | exist _ true _ => result
  | exist _ false Hne => alignTo8Byte (result ++ [x00])
}.
Next Obligation.
  intros result Hne _. rewrite length_app. simpl length.
  apply padding_decreases, Hne.
Qed.

(** According to [LSB, 25.2.2], "A Header structure shall be aligned to an
    8 byte boundary." *)
Definition appendAlignedTo8Byte (a b : list byte) : list byte :=
  alignTo8Byte a ++ b.

(** [Generator.Build]. *)
Definition Build `{Encoders} (pkg : Package) : list byte * option error :=
  match MakePayload pkg with
  | Abort e => ([], Some e)
  | Done payload =>
      let headerSection := MakeHeaderSection pkg payload in
      let signatureSection := MakeSignatureSection headerSection payload in
      let lead := LeadBinary pkg in
      let combined1 := appendAlignedTo8Byte lead signatureSection in
      let combined2 := appendAlignedTo8Byte combined1 headerSection in
      (combined2 ++ Binary payload, None)
  end.

(** The layout in which every region, the payload too, begins at a
    multiple of 8 bytes. *)
Definition allRegionsAligned (lead signatureSection headerSection payload : list byte)
  : list byte :=
  appendAlignedTo8Byte
    (appendAlignedTo8Byte (appendAlignedTo8Byte lead signatureSection) headerSection)
    payload.

End rpm.

(** ** Package [pacman]: the in-memory revision of the Pacman generator *)

Module pacman.
Import common.

(** What [writePKGINFO] reads from outside the package:
    [common.VersionString()] and [time.Now().Unix()]. *)
Record Env := {
  VersionString : string;
  Now : Z
}.

(** Functions of the repository that [writePKGINFO] calls and that are not
    among the sources; the generator is given for any of them. *)
Class Helpers := {
  InstalledSizeInBytes : FSNode -> N;
  compilePackageRelations : string -> list PackageRelation -> string;
  compilePackageRequirements : list PackageRelation -> result string
}.

Definition fullVersionString (pkg : Package) : string :=
  let str := gostrings.Replace (Version pkg) "-"%char "_"%char
             +:+ "-" +:+ gostrings.itoa (Release pkg) in
  if (0 <? Epoch pkg)%N
  then gostrings.itoa (Epoch pkg) +:+ ":" +:+ str
  else str.

(** [Generator.RecommendedFileName]. *)
Definition RecommendedFileName (pkg : Package) : string :=
  Name pkg +:+ "-" +:+ fullVersionString pkg +:+ "-any.pkg.tar.xz".

(** The callback of the walk in [compileBackupMarkers]. *)
Definition noteBackup (lines : list string) (visit : string * FSNode) : list string :=
  let (path, node) := visit in
  match node with
  | FSRegularFile _ _ =>
      if negb (gostrings.HasPrefix path "usr/share/holo/")
      then lines ++ ["backup = " +:+ path +:+ LF]
      else lines
  | FSDirectory _ _ => lines
  | FSSymlink _ => lines
  end.

(** The slice [lines] of [compileBackupMarkers] after [sort.Strings]. *)
Definition backupMarkers (pkg : Package) : list string :=
  gosort.Strings (foldl noteBackup [] (WalkFSWithRelativePaths pkg)).

Definition compileBackupMarkers (pkg : Package) : string :=
  gostrings.Join (backupMarkers pkg).

(** The value of [contents] when [writePKGINFO] writes the file, or the
    error of [compilePackageRequirements]. *)
Definition pkginfo `{Helpers} (env : Env) (pkg : Package) (buildReproducibly : bool)
  : result string :=
  let desc := gostrings.collapseSpace false (gostrings.TrimSpace (Description pkg)) in
  let contents :=
    if buildReproducibly
    then "# Generated by holo-build in reproducible mode" +:+ LF
    else "# Generated by holo-build " +:+ VersionString env +:+ LF in
  let contents := contents +:+ ("pkgname = " +:+ Name pkg +:+ LF) in
  let contents := contents +:+ ("pkgver = " +:+ fullVersionString pkg +:+ LF) in
  let contents := contents +:+ ("pkgdesc = " +:+ desc +:+ LF) in
  let contents := contents +:+ ("url = " +:+ LF) in
  let contents :=
    if negb buildReproducibly
    then contents +:+ ("builddate = " +:+ gostrings.itoaZ (Now env) +:+ LF)
    else contents in
  let contents :=
    if String.eqb (Author pkg) ""
    then contents +:+ ("packager = Unknown Packager" +:+ LF)
    else contents +:+ ("packager = " +:+ Author pkg +:+ LF) in
  let contents :=
    contents +:+ ("size = " +:+ gostrings.itoa (InstalledSizeInBytes (FSRoot pkg)) +:+ LF) in
  let contents := contents +:+ ("arch = any" +:+ LF) in
  let contents := contents +:+ ("license = custom:none" +:+ LF) in
  let contents := contents +:+ compilePackageRelations "replaces" (Replaces pkg) in
  let contents := contents +:+ compilePackageRelations "conflict" (Conflicts pkg) in
  let contents := contents +:+ compilePackageRelations "provides" (Provides pkg) in
  let contents := contents +:+ compileBackupMarkers pkg in
  match compilePackageRequirements (Requires pkg) with
  | Abort err => Abort err
  | Done requires =>
      let contents := contents +:+ requires in
      let contents := contents +:+ ("makedepend = holo-build" +:+ LF) in
      let contents := contents +:+ ("makepkgopt = !strip" +:+ LF) in
      let contents := contents +:+ ("makepkgopt = docs" +:+ LF) in
      let contents := contents +:+ ("makepkgopt = libtool" +:+ LF) in
      let contents := contents +:+ ("makepkgopt = staticlibs" +:+ LF) in
      let contents := contents +:+ ("makepkgopt = emptydirs" +:+ LF) in
      let contents := contents +:+ ("makepkgopt = !zipman" +:+ LF) in
      let contents := contents +:+ ("makepkgopt = !purge" +:+ LF) in
      let contents := contents +:+ ("makepkgopt = !upx" +:+ LF) in
      let contents := contents +:+ ("makepkgopt = !debug" +:+ LF) in
      Done contents
  end.

(** The assignment [Entries[name] = node] on a directory: the entry of that
    name is replaced, or one is added.  [FSRoot] is a [*FSDirectory] in the
    source; another node is left alone. *)
Fixpoint assign (entries : list (string * FSNode)) (name : string) (node : FSNode)
  : list (string * FSNode) :=
  match entries with
  | [] => [(name, node)]
  | (name', node') :: rest =>
      if String.eqb name' name then (name, node) :: rest
      else (name', node') :: assign rest name node
  end.

Definition setEntry (root : FSNode) (name : string) (node : FSNode) : FSNode :=
  match root with
  | FSDirectory entries m => FSDirectory (assign entries name node) m
  | FSRegularFile _ _ => root
  | FSSymlink _ => root
  end.

(** [writePKGINFO]: the package as it leaves it, and the error. *)
Definition writePKGINFO `{Helpers} (env : Env) (pkg : Package) (buildReproducibly : bool)
  : Package * option error :=
  match pkginfo env pkg buildReproducibly with
  | Abort err => (pkg, Some err)
  | Done contents =>
      (setFSRoot pkg
         (setEntry (FSRoot pkg) ".PKGINFO"
            (FSRegularFile contents {| Mode := 420; Owner := None; Group := None |})),
       None)
  end.

(** Modelled from the spec: the line of a relation in [.PKGINFO] (the
    name, then the version constraint if there is one).
    [compilePackageRelations] is not among the sources. *)
Definition relationLine (relType : string) (rel : PackageRelation) : string :=
  relType +:+ " = " +:+ RelatedPackage rel
  +:+ match Constraint rel with
      | Some (op, version) => op +:+ version
      | None => ""
      end
  +:+ LF.

(** Modelled from the spec: [FSNode.InstalledSizeInBytes], the sum of the
    sizes of the regular files. *)
Fixpoint sizeOf (node : FSNode) : N :=
  match node with
  | FSDirectory entries _ =>
      fold_right (fun entry acc => (sizeOf (snd entry) + acc)%N) 0%N entries
  | FSRegularFile content _ => N.of_nat (String.length content)
  | FSSymlink _ => 0%N
  end.

(** Modelled from the spec: the helpers that are not among the sources.
    Relation lists are emitted in encounter order, one line per relation;
    requirements are relations of type [depend]. *)
Definition specHelpers : Helpers := {|
  InstalledSizeInBytes := sizeOf;
  compilePackageRelations relType rels := gostrings.Join (map (relationLine relType) rels);
  compilePackageRequirements rels := Done (gostrings.Join (map (relationLine "depend") rels))
|}.




(** The value of [contents] in [writeINSTALL] when it decides whether the
    file is needed. *)
Definition installContents (pkg : Package) : string :=
  let contents := "" in
  let contents :=
    let script := gostrings.TrimSpace (SetupScript pkg) in
    if negb (String.eqb script "")
    then contents +:+ ("post_install() {" +:+ LF +:+ script +:+ LF +:+ "}" +:+ LF
                       +:+ "post_upgrade() {" +:+ LF +:+ "post_install" +:+ LF
                       +:+ "}" +:+ LF)
    else contents in
  let contents :=
    let script := gostrings.TrimSpace (CleanupScript pkg) in
    if negb (String.eqb script "")
    then contents +:+ ("post_remove() {" +:+ LF +:+ script +:+ LF +:+ "}" +:+ LF)
    else contents in
  contents.

(** [writeINSTALL]: the package as it leaves it. *)
Definition writeINSTALL (pkg : Package) (buildReproducibly : bool) : Package :=
  let contents := installContents pkg in
  if String.eqb contents "" then pkg
  else
    setFSRoot pkg
      (setEntry (FSRoot pkg) ".INSTALL"
         (FSRegularFile contents {| Mode := 420; Owner := None; Group := None |})).

(** What [Build] calls besides and is not among the sources: [MakeMTREE],
    [FSDirectory.ToTarXZArchive], and the text [err.Error()] of an error. *)
Class Archiver := {
  MakeMTREE : Package -> bool -> result string;
  ToTarXZArchive : FSNode -> bool -> bool -> bool -> list byte * option error;
  errorText : error -> string
}.

(** [writeMTREE]: the package as it leaves it, and the error. *)
Definition writeMTREE `{Archiver} (pkg : Package) (buildReproducibly : bool)
  : Package * option error :=
  match MakeMTREE pkg buildReproducibly with
  | Abort err => (pkg, Some err)
  | Done contents =>
      (setFSRoot pkg
         (setEntry (FSRoot pkg) ".MTREE"
            (FSRegularFile contents {| Mode := 420; Owner := None; Group := None |})),
       None)
  end.

(** [Generator.Build] of the in-memory revision: the bytes and the error,
    and the package as it leaves it. *)
Definition Build `{Helpers} `{Archiver} (env : Env) (pkg : Package)
    (buildReproducibly : bool) : (list byte * option error) * Package :=
  match writePKGINFO env pkg buildReproducibly with
  | (pkg1, Some err) =>
      (([], Some (OtherError ("Failed to write .PKGINFO: " +:+ errorText err))), pkg1)
  | (pkg1, None) =>
      let pkg2 := writeINSTALL pkg1 buildReproducibly in
      match writeMTREE pkg2 buildReproducibly with
      | (pkg3, Some err) =>
          (([], Some (OtherError ("Failed to write .MTREE: " +:+ errorText err))), pkg3)
      | (pkg3, None) =>
          (ToTarXZArchive (FSRoot pkg3) false true buildReproducibly, pkg3)
      end
  end.

End pacman.

(** ** Package [pacman]: the filesystem-rooted revision of the generator *)

Module pacman_fs.
Import common.

Definition fullVersionString (pkg : Package) : string :=
  let str := gostrings.Replace (Version pkg) "-"%char "_"%char
             +:+ "-" +:+ gostrings.itoa (Release pkg) in
  if (0 <? Epoch pkg)%N
  then gostrings.itoa (Epoch pkg) +:+ ":" +:+ str
  else str.

(** [Generator.RecommendedFileName]. *)
Definition RecommendedFileName (pkg : Package) : string :=
  Name pkg +:+ "-" +:+ fullVersionString pkg +:+ "-any.pkg.tar.xz".

(** [Generator.BuildInMemory]:
    [return nil, common.UnsupportedBuildMethodError]. *)
Definition BuildInMemory {World : Type} (pkg : Package) (buildReproducibly : bool)
    (w : World) : (list byte * option error) * (Package * World) :=
  (([], Some UnsupportedBuildMethodError), (pkg, w)).

(** The body of the loop over [pkg.FSEntries] in [compileBackupMarkers]. *)
Definition noteBackup (lines : list string) (entry : FSEntry) : list string :=
  match Type_ entry with
  | FSEntryTypeRegular =>
      if negb (gostrings.HasPrefix (Path entry) "/usr/share/holo/")
      then lines ++ ["backup = " +:+ gostrings.TrimPrefix (Path entry) "/" +:+ LF]
      else lines
  | FSEntryTypeDirectory => lines
  | FSEntryTypeSymlink => lines
  end.

(** The slice [lines] of [compileBackupMarkers] after [sort.Strings]. *)
Definition backupMarkers (pkg : Package) : list string :=
  gosort.Strings (foldl noteBackup [] (FSEntries pkg)).

Definition compileBackupMarkers (pkg : Package) : string :=
  gostrings.Join (backupMarkers pkg).

(** What [writePKGINFO] reads from outside the package: the output or the
    error of [exec.Command("fakeroot", "--version")],
    [common.VersionString()] and [time.Now().Unix()]. *)
Record Env := {
  FakerootVersion : result string;
  VersionString : string;
  Now : Z
}.

(** Functions of the repository that [writePKGINFO] calls and that are not
    among the sources. *)
Class Helpers := {
  InstalledSizeInBytes : Package -> N;
  compilePackageRelations : string -> list PackageRelation -> string;
  compilePackageRequirements : list PackageRelation -> result string
}.

(** The value of [contents] that [writePKGINFO] hands to
    [common.WriteFile], or the error that it returns before. *)
Definition pkginfo `{Helpers} (env : Env) (pkg : Package) (buildReproducibly : bool)
  : result string :=
  match FakerootVersion env with
  | Abort err => Abort err
  | Done fakerootVersionString =>
      let desc := gostrings.collapseSpace false (gostrings.TrimSpace (Description pkg)) in
      let contents :=
        if buildReproducibly
        then "# Generated by holo-build in reproducible mode" +:+ LF
        else ("# Generated by holo-build " +:+ VersionString env +:+ LF)
             +:+ ("# using " +:+ gostrings.TrimSpace fakerootVersionString +:+ LF) in
      let contents := contents +:+ ("pkgname = " +:+ Name pkg +:+ LF) in
      let contents := contents +:+ ("pkgver = " +:+ fullVersionString pkg +:+ LF) in
      let contents := contents +:+ ("pkgdesc = " +:+ desc +:+ LF) in
      let contents := contents +:+ ("url = " +:+ LF) in
      let contents :=
        if negb buildReproducibly
        then contents +:+ ("builddate = " +:+ gostrings.itoaZ (Now env) +:+ LF)
        else contents in
      let contents :=
        if String.eqb (Author pkg) ""
        then contents +:+ ("packager = Unknown Packager" +:+ LF)
        else contents +:+ ("packager = " +:+ Author pkg +:+ LF) in
      let contents :=
        contents +:+ ("size = " +:+ gostrings.itoa (InstalledSizeInBytes pkg) +:+ LF) in
      let contents := contents +:+ ("arch = any" +:+ LF) in
      let contents := contents +:+ ("license = custom:none" +:+ LF) in
      let contents := contents +:+ compilePackageRelations "replaces" (Replaces pkg) in
      let contents := contents +:+ compilePackageRelations "conflict" (Conflicts pkg) in
      let contents := contents +:+ compilePackageRelations "provides" (Provides pkg) in
      let contents := contents +:+ compileBackupMarkers pkg in
      match compilePackageRequirements (Requires pkg) with
      | Abort err => Abort err
      | Done requires =>
          let contents := contents +:+ requires in
          let contents := contents +:+ ("makedepend = holo-build" +:+ LF) in
          let contents := contents +:+ ("makepkgopt = !strip" +:+ LF) in
          let contents := contents +:+ ("makepkgopt = docs" +:+ LF) in
          let contents := contents +:+ ("makepkgopt = libtool" +:+ LF) in
          let contents := contents +:+ ("makepkgopt = staticlibs" +:+ LF) in
          let contents := contents +:+ ("makepkgopt = emptydirs" +:+ LF) in
          let contents := contents +:+ ("makepkgopt = !zipman" +:+ LF) in
          let contents := contents +:+ ("makepkgopt = !purge" +:+ LF) in
          let contents := contents +:+ ("makepkgopt = !upx" +:+ LF) in
          let contents := contents +:+ ("makepkgopt = !debug" +:+ LF) in
          Done contents
      end
  end.

(** The loop of [writeMTREE] over the entries that [filepath.Glob] found:
    [rel entry] is the result of [filepath.Rel(rootPath, entry)]. *)
Fixpoint mtreeTargets (rel : string -> result string) (entries : list string)
  : result (list string) :=
  match entries with
  | [] => Done []
  | entry :: rest =>
      match rel entry with
      | Abort err => Abort err
      | Done target =>
          let target :=
            if negb (gostrings.HasPrefix target "./") then "./" +:+ target else target in
          match mtreeTargets rel rest with
          | Abort err => Abort err
          | Done targets => Done (target :: targets)
          end
      end
  end.

(** The value of [contents] in [writeINSTALL] when it decides whether the
    file is needed. *)
Definition installContents (pkg : Package) : string :=
  let contents := "" in
  let contents :=
    let script := gostrings.TrimSpace (SetupScript pkg) in
    if negb (String.eqb script "")
    then contents +:+ ("post_install() {" +:+ LF +:+ script +:+ LF +:+ "}" +:+ LF
                       +:+ "post_upgrade() {" +:+ LF +:+ "post_install" +:+ LF
                       +:+ "}" +:+ LF)
    else contents in
  let contents :=
    let script := gostrings.TrimSpace (CleanupScript pkg) in
    if negb (String.eqb script "")
    then contents +:+ ("post_remove() {" +:+ LF +:+ script +:+ LF +:+ "}" +:+ LF)
    else contents in
  contents.

(** The calls that the generator makes to the operating system and to the
    functions of the repository that are not among the sources:
    [common.WriteFile], [filepath.Glob], [exec.Command] with its working
    directory, [os.Chmod] and [common.ResetTimestamp]. *)
Inductive OsCall :=
| OsWriteFile (path contents : string) (perm : N) (buildReproducibly : bool)
| OsGlob (pattern : string)
| OsExec (dir name : string) (args : list string)
| OsChmod (path : string) (perm : N)
| OsResetTimestamp (path : string).

Definition OsEvent : Type := OsCall * option error.

(** The arguments of [env] in [writeMTREE]. *)
Definition mtreeArgs (targets : list string) : list string :=
  ["LANG=C"; "bsdtar"; "-czf"; ".MTREE"; "--format=mtree";
   "--options=!all,use-set,type,uid,gid,mode,time,size,md5,sha256,link"]
  ++ targets.

(** The arguments of [env] in [compressPackage]. *)
Definition compressArgs : list string :=
  ["LANG=C"; "bsdtar"; "-cJf"; "-"; "--strip-components"; "1"; "."].

Section Rooted.
Context {World : Type}.

(** The operating system as the generator uses it.  [Join] is
    [filepath.Join], [Rel] is [filepath.Rel] and [errorText] is
    [err.Error()]; [Exec] runs a command in a directory and returns its
    standard output. *)
Record Os := {
  Join : string -> string -> string;
  Rel : string -> string -> result string;
  errorText : error -> string;
  WriteFile : string -> string -> N -> bool -> World -> option error * World;
  Glob : string -> World -> result (list string);
  Exec : string -> string -> list string -> World -> (list byte * option error) * World;
  Chmod : string -> N -> World -> option error * World;
  ResetTimestamp : string -> World -> option error * World
}.

(** A run of the generator: the operating system and the calls made so
    far go in, and come out with the value or the error. *)
Definition Run (A : Type) : Type :=
  World * list OsEvent -> result A * (World * list OsEvent).

Definition pass : Run unit := fun s => (Done tt, s).

Definition andThen {A B : Type} (m : Run A) (k : A -> Run B) : Run B :=
  fun s =>
    match m s with
    | (Done a, s') => k a s'
    | (Abort e, s') => (Abort e, s')
    end.

(** A call followed by [if err != nil { return err }]. *)
Definition call (c : OsCall) (op : World -> option error * World) : Run unit :=
  fun s =>
    let (err, w) := op (fst s) in
    (match err with Some e => Abort e | None => Done tt end,
     (w, snd s ++ [(c, err)])).

(** A function that returns a value or an error without a call. *)
Definition lift {A : Type} (r : result A) : Run A := fun s => (r, s).

(** [writePKGINFO]. *)
Definition writePKGINFO `{Helpers} (os : Os) (env : Env) (pkg : Package)
    (rootPath : string) (buildReproducibly : bool) : Run unit :=
  andThen (lift (pkginfo env pkg buildReproducibly)) (fun contents =>
  let path := Join os rootPath ".PKGINFO" in
  call (OsWriteFile path contents 420 buildReproducibly)
       (WriteFile os path contents 420 buildReproducibly)).

(** [writeINSTALL]. *)
Definition writeINSTALL (os : Os) (pkg : Package) (rootPath : string)
    (buildReproducibly : bool) : Run unit :=
  let contents := installContents pkg in
  if String.eqb contents "" then pass
  else
    let path := Join os rootPath ".INSTALL" in
    call (OsWriteFile path contents 420 buildReproducibly)
         (WriteFile os path contents 420 buildReproducibly).

(** [filepath.Glob]; it does not change the disk. *)
Definition glob (os : Os) (pattern : string) : Run (list string) :=
  fun s =>
    match Glob os pattern (fst s) with
    | Done entries => (Done entries, (fst s, snd s ++ [(OsGlob pattern, None)]))
    | Abort err => (Abort err, (fst s, snd s ++ [(OsGlob pattern, Some err)]))
    end.

(** [cmd.Run()] of a command with the working directory [dir]. *)
Definition run (os : Os) (dir name : string) (args : list string) : Run unit :=
  call (OsExec dir name args) (fun w => let (out, w') := Exec os dir name args w in
                                        (snd out, w')).

(** [writeMTREE]. *)
Definition writeMTREE (os : Os) (rootPath : string) (buildReproducibly : bool)
  : Run unit :=
  andThen (glob os (Join os rootPath "*")) (fun entries =>
  andThen (lift (mtreeTargets (Rel os rootPath) entries)) (fun targets =>
  andThen (run os rootPath "env" (mtreeArgs targets)) (fun _ =>
  andThen (call (OsChmod (Join os rootPath ".MTREE") 420)
                (Chmod os (Join os rootPath ".MTREE") 420)) (fun _ =>
  if buildReproducibly
  then call (OsResetTimestamp (Join os rootPath ".MTREE"))
            (ResetTimestamp os (Join os rootPath ".MTREE"))
  else pass)))).

(** [compressPackage]: [cmd.Output()], the standard output and the error
    of the command. *)
Definition compressPackage (os : Os) (rootPath : string)
  : World * list OsEvent -> (list byte * option error) * (World * list OsEvent) :=
  fun s =>
    let (out, w) := Exec os rootPath "env" compressArgs (fst s) in
    (out, (w, snd s ++ [(OsExec rootPath "env" compressArgs, snd out)])).

(** [Generator.Build] of the filesystem-rooted revision. *)
Definition Build `{Helpers} (os : Os) (env : Env) (pkg : Package) (rootPath : string)
    (buildReproducibly : bool)
  : World * list OsEvent -> (list byte * option error) * (World * list OsEvent) :=
  fun s =>
    match writePKGINFO os env pkg rootPath buildReproducibly s with
    | (Abort err, s1) =>
        (([], Some (OtherError ("Failed to write .PKGINFO: " +:+ errorText os err))), s1)
    | (Done _, s1) =>
        match writeINSTALL os pkg rootPath buildReproducibly s1 with
        | (Abort err, s2) =>
            (([], Some (OtherError ("Failed to write .INSTALL: "
                                    +:+ errorText os err))), s2)
        | (Done _, s2) =>
            match writeMTREE os rootPath buildReproducibly s2 with
            | (Abort err, s3) =>
                (([], Some (OtherError ("Failed to write .MTREE: "
                                        +:+ errorText os err))), s3)
            | (Done _, s3) => compressPackage os rootPath s3
            end
        end
    end.

(** The calls of a build in which nothing fails, for the contents of
    [.PKGINFO] and the targets of the manifest. *)
Definition stages (os : Os) (pkg : Package) (rootPath : string) (buildReproducibly : bool)
    (contents : string) (targets : list string) : list OsCall :=
  [OsWriteFile (Join os rootPath ".PKGINFO") contents 420 buildReproducibly]
  ++ (if String.eqb (installContents pkg) "" then []
      else [OsWriteFile (Join os rootPath ".INSTALL") (installContents pkg) 420
              buildReproducibly])
  ++ [OsGlob (Join os rootPath "*");
      OsExec rootPath "env" (mtreeArgs targets);
      OsChmod (Join os rootPath ".MTREE") 420]
  ++ (if buildReproducibly then [OsResetTimestamp (Join os rootPath ".MTREE")] else [])
  ++ [OsExec rootPath "env" compressArgs].

End Rooted.
Arguments Os World : clear implicits.

(** The generator as [Package.Build] uses it.  [Validate] is not among the
    sources and is given; [Build] gets the package by pointer and leaves
    it as it is. *)
Definition generator `{Helpers} {World : Type} (os : Os World) (env : Env)
    (validate : Package -> list error) : Generator.t (World * list OsEvent) := {|
  Generator.Validate := validate;
  Generator.BuildInMemory := BuildInMemory;
  Generator.Build p rootPath buildReproducibly s :=
    let (out, s') := Build os env p rootPath buildReproducibly s in (out, (p, s'));
  Generator.RecommendedFileName := RecommendedFileName
|}.

End pacman_fs.

(** ** Sample packages *)

Module samples.
Import common.

Definition plain : FSNodeMetadata := {| Mode := 420; Owner := None; Group := None |}.

Definition ownedByName : FSNodeMetadata :=
  {| Mode := 420; Owner := Some (ByName "alice"); Group := Some (ById 5) |}.

(** A tree with files of two Holo plugins, two configuration files and a
    symlink. *)
Definition twoPluginTree : FSNode :=
  FSDirectory
    [("usr", FSDirectory
       [("share", FSDirectory
          [("holo", FSDirectory
             [("files", FSDirectory [("a", FSRegularFile "x" plain)] plain);
              ("users-groups", FSDirectory [("b.toml", FSRegularFile "y" plain)] plain)]
             plain)]
          plain)]
       plain);
     ("etc", FSDirectory
        [("c.conf", FSRegularFile "z" plain);
         ("b.conf", FSRegularFile "w" plain);
         ("l", FSSymlink "c.conf")]
        plain)]
    plain.

(** The same tree where the file of the plugin [files] is owned by name. *)
Definition ownedPluginTree : FSNode :=
  FSDirectory
    [("usr", FSDirectory
       [("share", FSDirectory
          [("holo", FSDirectory
             [("files", FSDirectory [("a", FSRegularFile "x" ownedByName)] plain)]
             plain)]
          plain)]
       plain)]
    plain.

(** A package with that tree; [FSEntries] lists the entries outside
    [/usr] and one file of a plugin. *)
Definition package (version : string) (release epoch : N) (root : FSNode) : Package :=
  {| Name := "sample"; Version := version; Release := release; Epoch := epoch;
     Description := "  a  sample package "; Author := "";
     Architecture_ := ArchitectureX86_64;
     Requires := []; Provides := []; Conflicts := []; Replaces := [];
     SetupScript := "echo setup"; CleanupScript := "echo cleanup";
     FSRoot := root;
     FSEntries :=
       [ {| Type_ := FSEntryTypeDirectory; Path := "/etc" |};
         {| Type_ := FSEntryTypeRegular; Path := "/etc/c.conf" |};
         {| Type_ := FSEntryTypeRegular; Path := "/usr/share/holo/files/a" |};
         {| Type_ := FSEntryTypeRegular; Path := "/etc/b.conf" |};
         {| Type_ := FSEntryTypeSymlink; Path := "/etc/l" |} ] |}.

Definition twoPlugins : Package := package "1.2-3" 4 0 twoPluginTree.

Definition ownedPlugin : Package := package "1.2-3" 4 2 ownedPluginTree.

Definition env1 : pacman.Env := {| pacman.VersionString := "1.0"; pacman.Now := 1446800000 |}.

Definition env2 : pacman.Env := {| pacman.VersionString := "1.1"; pacman.Now := 1446900000 |}.

(** Encoders whose header section is 17 bytes long: a header section is
    16 bytes, 16 bytes per index entry and a data store of any size. *)
Definition encoders : rpm.Encoders := {|
  rpm.Payload := list byte;
  rpm.Binary payload := payload;
  rpm.MakePayload pkg := Done [x01; x02; x03];
  rpm.MakeHeaderSection pkg payload := repeat x8e 17;
  rpm.MakeSignatureSection headerSection payload := repeat x8e 16;
  rpm.LeadBinary pkg := repeat xed 96
|}.

(** A disk that is the list of the directories on it, and an operating
    system on it in which only [Materialize] can fail. *)
Definition system (materializeFails : bool) : System.t (list string) := {|
  System.RemoveAll path disk :=
    (None, List.filter (fun dir => negb (String.eqb dir path)) disk);
  System.Materialize root rootPath disk :=
    (if materializeFails then Some (OtherError "no space left on device") else None,
     rootPath :: disk);
  System.FilepathWalk rootPath disk := [(rootPath, None); (rootPath +:+ "/etc", None)];
  System.ResetTimestamp path disk := (None, disk);
  System.StdoutWrite pkgBytes disk := (None, disk);
  System.WriteFile pkgFile pkgBytes perm disk := (None, disk)
|}.

(** A generator that cannot build in memory, as the filesystem-rooted
    revision of the Pacman generator. *)
Definition rootedGenerator : Generator.t (list string) := {|
  Generator.Validate p := [];
  Generator.BuildInMemory := pacman_fs.BuildInMemory;
  Generator.Build p rootPath buildReproducibly disk := (([x01; x02], None), (p, disk));
  Generator.RecommendedFileName := pacman_fs.RecommendedFileName
|}.


(** What the filesystem-rooted generator reads from outside the package. *)
Definition fsEnv : pacman_fs.Env := {|
  pacman_fs.FakerootVersion := Done ("fakeroot version 1.20" +:+ LF);
  pacman_fs.VersionString := "1.0";
  pacman_fs.Now := 1446800000
|}.

Definition fsHelpers : pacman_fs.Helpers := {|
  pacman_fs.InstalledSizeInBytes p := pacman.sizeOf (FSRoot p);
  pacman_fs.compilePackageRelations relType rels :=
    gostrings.Join (map (pacman.relationLine relType) rels);
  pacman_fs.compilePackageRequirements rels :=
    Done (gostrings.Join (map (pacman.relationLine "depend") rels))
|}.

(** An operating system for the generator on the same disk, in which no
    call fails and the root directory holds [etc] and [.PKGINFO]. *)
Definition os : pacman_fs.Os (list string) := {|
  pacman_fs.Join dir name := dir +:+ "/" +:+ name;
  pacman_fs.Rel base path := Done (gostrings.TrimPrefix path (base +:+ "/"));
  pacman_fs.errorText err :=
    match err with
    | OtherError msg => msg
    | UnsupportedBuildMethodError => "unsupported build method"
    end;
  pacman_fs.WriteFile path contents perm buildReproducibly disk := (None, disk);
  pacman_fs.Glob pattern disk :=
    Done ["./holo-build-sample-1.2-3/etc"; "./holo-build-sample-1.2-3/.PKGINFO"];
  pacman_fs.Exec dir name args disk := (([xfd; x37; x7a], None), disk);
  pacman_fs.Chmod path perm disk := (None, disk);
  pacman_fs.ResetTimestamp path disk := (None, disk)
|}.

(** An operating system of the orchestrator that leaves the calls of the
    generator alone. *)
Definition logged (sys : System.t (list string))
  : System.t (list string * list pacman_fs.OsEvent) := {|
  System.RemoveAll path s :=
    let (err, disk) := System.RemoveAll sys path (fst s) in (err, (disk, snd s));
  System.Materialize root rootPath s :=
    let (err, disk) := System.Materialize sys root rootPath (fst s) in (err, (disk, snd s));
  System.FilepathWalk rootPath s := System.FilepathWalk sys rootPath (fst s);
  System.ResetTimestamp path s :=
    let (err, disk) := System.ResetTimestamp sys path (fst s) in (err, (disk, snd s));
  System.StdoutWrite pkgBytes s :=
    let (err, disk) := System.StdoutWrite sys pkgBytes (fst s) in (err, (disk, snd s));
  System.WriteFile pkgFile pkgBytes perm s :=
    let (err, disk) := System.WriteFile sys pkgFile pkgBytes perm (fst s) in
    (err, (disk, snd s))
|}.

(** The filesystem-rooted Pacman generator on that operating system. *)
Definition pacmanGenerator : Generator.t (list string * list pacman_fs.OsEvent) :=
  pacman_fs.generator (H := fsHelpers) os fsEnv (fun _ => []).

End samples.

(** * Properties *)

Import common.

(** ** Strings *)

Lemma append_cons (c : ascii) (s t : string) :
  String c s +:+ t = String c (s +:+ t).
Proof. reflexivity. Qed.

Lemma append_nil_r (s : string) : s +:+ "" = s.
Proof.
  induction s as [|c s IH]; [reflexivity|].
  rewrite append_cons, IH. reflexivity.
Qed.

Lemma append_assoc (a b c : string) : (a +:+ b) +:+ c = a +:+ (b +:+ c).
Proof.
  induction a as [|x a IH]; [reflexivity|].
  rewrite !append_cons, IH. reflexivity.
Qed.

Lemma HasPrefix_append (p s : string) : gostrings.HasPrefix (p +:+ s) p = true.
Proof.
  unfold gostrings.HasPrefix. induction p as [|c p IH].
  - now destruct s.
  - rewrite append_cons. simpl.
    destruct (ascii_dec c c); [exact IH | congruence].
Qed.

Lemma HasPrefix_inv (s p : string) :
  gostrings.HasPrefix s p = true -> exists rest, s = p +:+ rest.
Proof.
  unfold gostrings.HasPrefix. revert s. induction p as [|c p IH]; intros s H.
  - exists s. reflexivity.
  - destruct s as [|d s]; simpl in H; [discriminate|].
    destruct (ascii_dec c d) as [->|]; [|discriminate].
    destruct (IH s H) as [rest ->]. exists rest. reflexivity.
Qed.

Lemma Replace_length (s : string) (old new : ascii) :
  String.length (gostrings.Replace s old new) = String.length s.
Proof. induction s as [|c s IH]; simpl; [reflexivity | now rewrite IH]. Qed.

Lemma Replace_get (s : string) (old new : ascii) (i : nat) :
  get i (gostrings.Replace s old new) =
  option_map (fun c => if Ascii.eqb c old then new else c) (get i s).
Proof.
  revert i. induction s as [|c s IH]; intros i; simpl; [reflexivity|].
  destruct i; simpl; [reflexivity | apply IH].
Qed.

(** ** The version string of Pacman packages *)

(** C5: [pkgver] is the version with every dash replaced by an underscore
    (byte for byte, nothing else changed), then a dash and the release, and
    it is preceded by the epoch and a colon exactly when the epoch is
    positive; both revisions of the generator agree.  Version ["1.2-3"],
    release 4 renders as ["1.2_3-4"] for epoch 0 and as ["2:1.2_3-4"] for
    epoch 2. *)
Theorem pacman_pkgver (pkg : Package) :
  pacman.fullVersionString pkg =
    (if (0 <? Epoch pkg)%N then gostrings.itoa (Epoch pkg) +:+ ":" else "")
    +:+ gostrings.Replace (Version pkg) "-"%char "_"%char
    +:+ "-" +:+ gostrings.itoa (Release pkg)
  /\ pacman_fs.fullVersionString pkg = pacman.fullVersionString pkg
  /\ String.length (gostrings.Replace (Version pkg) "-"%char "_"%char)
     = String.length (Version pkg)
  /\ (forall i : nat,
        get i (gostrings.Replace (Version pkg) "-"%char "_"%char) =
        option_map (fun c => if Ascii.eqb c "-"%char then "_"%char else c)
                   (get i (Version pkg)))
  /\ (Version pkg = "1.2-3" -> Release pkg = 4%N ->
      (Epoch pkg = 0%N -> pacman.fullVersionString pkg = "1.2_3-4")
      /\ (Epoch pkg = 2%N -> pacman.fullVersionString pkg = "2:1.2_3-4")).
Proof.
  split; [|split; [|split; [|split]]].
  - unfold pacman.fullVersionString.
    destruct (0 <? Epoch pkg)%N; [|reflexivity].
    now rewrite !append_assoc.
  - reflexivity.
  - apply Replace_length.
  - intros i. apply Replace_get.
  - intros Hv Hr. unfold pacman.fullVersionString. rewrite Hv, Hr.
    split; intros ->; reflexivity.
Qed.

Lemma pacman_pkgver_witness :
  pacman.fullVersionString (samples.package "1.2-3" 4 0 samples.twoPluginTree) = "1.2_3-4"
  /\ pacman.fullVersionString (samples.package "1.2-3" 4 2 samples.twoPluginTree) = "2:1.2_3-4".
Proof.
  split.
  - apply (pacman_pkgver (samples.package "1.2-3" 4 0 samples.twoPluginTree));
      reflexivity.
  - apply (pacman_pkgver (samples.package "1.2-3" 4 2 samples.twoPluginTree));
      reflexivity.
Defined.

(** ** The RPM generator *)

(** C9: [Validate] of the RPM generator returns no error, whatever the
    package. *)
Theorem rpm_Validate_accepts_every_package (pkg : Package) :
  rpm.Validate pkg = [] /\ length (rpm.Validate pkg) = 0%nat.
Proof. split; reflexivity. Qed.

Lemma aligned_after_one_more (n k : nat) :
  (n mod 8 <> 0)%nat -> (k < 8)%nat -> ((n + 1 + k) mod 8 = 0)%nat ->
  (S k < 8)%nat /\ ((n + S k) mod 8 = 0)%nat.
Proof.
  intros Hn Hk Hmod.
  assert (k <> 7)%nat as Hk7.
  { intros ->. apply Hn.
    replace (n + 1 + 7)%nat with (n + 1 * 8)%nat in Hmod by lia.
    now rewrite Nat.Div0.mod_add in Hmod. }
  split; [lia|].
  now replace (n + S k)%nat with (n + 1 + k)%nat by lia.
Qed.

Lemma alignTo8Byte_spec (a : list byte) :
  exists k : nat,
    (k < 8)%nat /\ ((length a + k) mod 8 = 0)%nat
    /\ rpm.alignTo8Byte a = a ++ repeat x00 k.
Proof.
  funelim (rpm.alignTo8Byte a).
  - exists 0%nat. rewrite Nat.add_0_r, app_nil_r.
    repeat split; [lia | apply Nat.eqb_eq; assumption].
  - match goal with
    | IH : exists k : nat, _ |- _ => destruct IH as (k & Hk & Hmod & Heq)
    end.
    match goal with
    | Hne : (_ =? 0)%nat = false |- _ =>
        pose proof (proj1 (Nat.eqb_neq _ _) Hne) as Hne'
    end.
    rewrite length_app in Hmod. change (length [x00]) with 1%nat in Hmod.
    destruct (aligned_after_one_more _ _ Hne' Hk Hmod) as [Hk' Hmod'].
    exists (S k). repeat split; [exact Hk' | exact Hmod' |].
    rewrite Heq, <- app_assoc. reflexivity.
Qed.

(** C2 (as amended): when the payload can be made, [Build] returns the
    lead, zero bytes up to the next multiple of 8, the signature section,
    zero bytes up to the next multiple of 8, the header section and then,
    with no padding, the payload; fewer than 8 zero bytes are added each
    time.  When the payload cannot be made, [Build] returns that error. *)
Theorem rpm_Build_layout `{rpm.Encoders} (pkg : Package) :
  match rpm.MakePayload pkg with
  | Abort e => rpm.Build pkg = ([], Some e)
  | Done payload =>
      let headerSection := rpm.MakeHeaderSection pkg payload in
      let signatureSection := rpm.MakeSignatureSection headerSection payload in
      let lead := rpm.LeadBinary pkg in
      exists pad1 pad2 : nat,
        (pad1 < 8)%nat /\ (pad2 < 8)%nat
        /\ ((length lead + pad1) mod 8 = 0)%nat
        /\ ((length (lead ++ repeat x00 pad1 ++ signatureSection) + pad2) mod 8 = 0)%nat
        /\ rpm.Build pkg =
             (lead ++ repeat x00 pad1 ++ signatureSection ++ repeat x00 pad2
                   ++ headerSection ++ rpm.Binary payload, None)
  end.
Proof.
  unfold rpm.Build. destruct (rpm.MakePayload pkg) as [payload|e]; [|reflexivity].
  cbv zeta. unfold rpm.appendAlignedTo8Byte.
  destruct (alignTo8Byte_spec (rpm.LeadBinary pkg)) as (pad1 & H1 & Hm1 & E1).
  rewrite E1.
  destruct (alignTo8Byte_spec
              ((rpm.LeadBinary pkg ++ repeat x00 pad1)
                 ++ rpm.MakeSignatureSection (rpm.MakeHeaderSection pkg payload) payload))
    as (pad2 & H2 & Hm2 & E2).
  rewrite E2. exists pad1, pad2.
  rewrite <- !app_assoc in *. repeat split; try assumption.
Qed.

(** C2 as stated fails: with a header section of 17 bytes the payload
    begins right after it, at an offset that is not a multiple of 8, and
    the output is not the layout in which every boundary is padded. *)
Lemma rpm_payload_is_not_aligned :
  let headerSection := repeat x8e 17 in
  let signatureSection := repeat x8e 16 in
  let lead := repeat xed 96 in
  let payload := [x01; x02; x03] in
  rpm.Build (H := samples.encoders) samples.twoPlugins
    = (lead ++ signatureSection ++ headerSection ++ payload, None)
  /\ fst (rpm.Build (H := samples.encoders) samples.twoPlugins)
     <> rpm.allRegionsAligned lead signatureSection headerSection payload
  /\ (length (lead ++ signatureSection ++ headerSection) mod 8 = 1)%nat.
Proof.
  cbv zeta. split; [vm_compute; reflexivity|]. split; [|reflexivity].
  intros Heq. apply (f_equal length) in Heq. vm_compute in Heq. discriminate.
Qed.

(** ** The Pacman generator *)

Lemma hasLine_append (line text more : string) :
  hasLine line text -> hasLine line (text +:+ more).
Proof.
  intros (before & after & ->). exists before, (after +:+ more).
  now rewrite !append_assoc.
Qed.

Lemma hasLine_after_line (line text key value : string) :
  hasLine line ((text +:+ (key +:+ value +:+ LF)) +:+ (line +:+ LF)).
Proof.
  exists (text +:+ key +:+ value), "".
  now rewrite !append_assoc, append_nil_r.
Qed.

(** C10: the Pacman generator does not read the architecture of the
    package.  The recommended file name ends in ["-any.pkg.tar.xz"], the
    generated [.PKGINFO] has the line ["arch = any"], and neither changes
    when the architecture of the package is set to any other one. *)
Theorem pacman_ignores_architecture `{pacman.Helpers} (env : pacman.Env)
    (pkg : Package) (buildReproducibly : bool) (contents : string)
    (Hgenerated : pacman.pkginfo env pkg buildReproducibly = Done contents) :
  hasLine "arch = any" contents
  /\ (exists stem, pacman.RecommendedFileName pkg = stem +:+ "-any.pkg.tar.xz")
  /\ (exists stem, pacman_fs.RecommendedFileName pkg = stem +:+ "-any.pkg.tar.xz")
  /\ forall arch : Architecture,
       pacman.pkginfo env (setArchitecture pkg arch) buildReproducibly = Done contents
       /\ pacman.RecommendedFileName (setArchitecture pkg arch)
          = pacman.RecommendedFileName pkg
       /\ pacman_fs.RecommendedFileName (setArchitecture pkg arch)
          = pacman_fs.RecommendedFileName pkg.
Proof.
  split; [|split; [|split]].
  - unfold pacman.pkginfo in Hgenerated. cbv zeta in Hgenerated.
    destruct (pacman.compilePackageRequirements (Requires pkg)) as [requires|];
      [|discriminate].
    injection Hgenerated as <-.
    do 16 apply hasLine_append. apply hasLine_after_line.
  - exists (Name pkg +:+ "-" +:+ pacman.fullVersionString pkg).
    unfold pacman.RecommendedFileName. now rewrite !append_assoc.
  - exists (Name pkg +:+ "-" +:+ pacman_fs.fullVersionString pkg).
    unfold pacman_fs.RecommendedFileName. now rewrite !append_assoc.
  - intros arch. rewrite <- Hgenerated. repeat split; reflexivity.
Qed.

Lemma pacman_ignores_architecture_witness :
  hasLine "arch = any"
    ("# Generated by holo-build in reproducible mode" +:+ LF +:+
     "pkgname = sample" +:+ LF +:+ "pkgver = 1.2_3-4" +:+ LF +:+
     "pkgdesc = a sample package" +:+ LF +:+ "url = " +:+ LF +:+
     "packager = Unknown Packager" +:+ LF +:+ "size = 4" +:+ LF +:+
     "arch = any" +:+ LF +:+ "license = custom:none" +:+ LF +:+
     "backup = etc/b.conf" +:+ LF +:+ "backup = etc/c.conf" +:+ LF +:+
     "makedepend = holo-build" +:+ LF +:+ "makepkgopt = !strip" +:+ LF +:+
     "makepkgopt = docs" +:+ LF +:+ "makepkgopt = libtool" +:+ LF +:+
     "makepkgopt = staticlibs" +:+ LF +:+ "makepkgopt = emptydirs" +:+ LF +:+
     "makepkgopt = !zipman" +:+ LF +:+ "makepkgopt = !purge" +:+ LF +:+
     "makepkgopt = !upx" +:+ LF +:+ "makepkgopt = !debug" +:+ LF).
Proof.
  apply (pacman_ignores_architecture (H := pacman.specHelpers)
           samples.env1 samples.twoPlugins true).
  vm_compute. reflexivity.
Defined.

(** *** Backup markers *)

Lemma substring_all (s : string) : substring 0 (String.length s) s = s.
Proof. induction s as [|c s IH]; simpl; [reflexivity | now rewrite IH]. Qed.

Lemma TrimPrefix_slash (path : string) : gostrings.TrimPrefix ("/" +:+ path) "/" = path.
Proof.
  change ("/" +:+ path) with (String "/"%char path).
  unfold gostrings.TrimPrefix, gostrings.HasPrefix. simpl.
  destruct path; [reflexivity|].
  rewrite Nat.sub_0_r. apply substring_all.
Qed.

Lemma HasPrefix_absolute (path : string) :
  gostrings.HasPrefix ("/" +:+ path) "/usr/share/holo/"
  = gostrings.HasPrefix path "usr/share/holo/".
Proof. reflexivity. Qed.

Lemma noteBackup_step (lines : list string) (visit : string * FSNode) :
  pacman.noteBackup lines visit
  = lines ++ (if keepsBackup (absolute visit)
              then [backupMarker (fst (absolute visit))] else []).
Proof.
  destruct visit as [path node].
  unfold keepsBackup, absolute, backupMarker, pacman.noteBackup, fst, snd.
  rewrite HasPrefix_absolute, TrimPrefix_slash.
  destruct node; simpl; try (now rewrite app_nil_r).
  destruct (gostrings.HasPrefix path "usr/share/holo/"); simpl;
    [now rewrite app_nil_r | reflexivity].
Qed.

Lemma entry_noteBackup_step (lines : list string) (entry : FSEntry) :
  pacman_fs.noteBackup lines entry
  = lines ++ (if entryKeepsBackup entry then [backupMarker (Path entry)] else []).
Proof.
  unfold pacman_fs.noteBackup, entryKeepsBackup, backupMarker.
  destruct (Type_ entry); simpl; try (now rewrite app_nil_r).
  destruct (gostrings.HasPrefix (Path entry) "/usr/share/holo/"); simpl;
    [now rewrite app_nil_r | reflexivity].
Qed.

(** A loop that appends at most one line per element collects the lines of
    the elements it keeps, in order. *)
Lemma foldl_collect {A : Type} (note : list string -> A -> list string)
    (keep : A -> bool) (line : A -> string) (l : list A) (lines : list string) :
  (forall lines x, note lines x = lines ++ (if keep x then [line x] else [])) ->
  foldl note lines l = lines ++ map line (List.filter keep l).
Proof.
  intros Hstep. revert lines.
  induction l as [|x l IH]; intros lines; simpl.
  - now rewrite app_nil_r.
  - rewrite IH, Hstep. destruct (keep x); simpl.
    + now rewrite <- app_assoc.
    + now rewrite app_nil_r.
Qed.

Lemma foldl_noteBackup (visits : list (string * FSNode)) :
  foldl pacman.noteBackup [] visits
  = map (fun visit => backupMarker (fst visit))
        (List.filter keepsBackup (map absolute visits)).
Proof.
  rewrite (foldl_collect pacman.noteBackup (fun v => keepsBackup (absolute v))
             (fun v => backupMarker (fst (absolute v))))
    by apply noteBackup_step.
  simpl. induction visits as [|v visits IH]; simpl; [reflexivity|].
  destruct (keepsBackup (absolute v)); simpl; now rewrite IH.
Qed.

Lemma foldl_noteBackup_entries (entries : list FSEntry) :
  foldl pacman_fs.noteBackup [] entries
  = map (fun entry => backupMarker (Path entry))
        (List.filter entryKeepsBackup entries).
Proof.
  now rewrite (foldl_collect pacman_fs.noteBackup entryKeepsBackup
                 (fun entry => backupMarker (Path entry)))
    by apply entry_noteBackup_step.
Qed.

(** C6: in both revisions of the generator the backup markers are, up to
    their order, the markers of the regular files whose absolute path does
    not begin with ["/usr/share/holo/"], one marker per such file and no
    other; they are in increasing byte-wise lexicographic order; and
    [compileBackupMarkers] is their concatenation. *)
Theorem pacman_backup_markers (pkg : Package) :
  Permutation (pacman.backupMarkers pkg)
    (map (fun visit => backupMarker (fst visit))
         (List.filter keepsBackup (WalkFSWithAbsolutePaths pkg)))
  /\ StronglySorted String.le (pacman.backupMarkers pkg)
  /\ pacman.compileBackupMarkers pkg = gostrings.Join (pacman.backupMarkers pkg)
  /\ Permutation (pacman_fs.backupMarkers pkg)
       (map (fun entry => backupMarker (Path entry))
            (List.filter entryKeepsBackup (FSEntries pkg)))
  /\ StronglySorted String.le (pacman_fs.backupMarkers pkg)
  /\ pacman_fs.compileBackupMarkers pkg = gostrings.Join (pacman_fs.backupMarkers pkg).
Proof.
  unfold pacman.backupMarkers, pacman_fs.backupMarkers, gosort.Strings.
  repeat split.
  - rewrite merge_sort_Permutation, foldl_noteBackup. reflexivity.
  - apply (StronglySorted_merge_sort _).
  - rewrite merge_sort_Permutation, foldl_noteBackup_entries. reflexivity.
  - apply (StronglySorted_merge_sort _).
Qed.

Example backup_markers_of_sample :
  pacman.backupMarkers samples.twoPlugins
  = ["backup = etc/b.conf" +:+ LF; "backup = etc/c.conf" +:+ LF]
  /\ pacman_fs.backupMarkers samples.twoPlugins
     = ["backup = etc/b.conf" +:+ LF; "backup = etc/c.conf" +:+ LF].
Proof. split; vm_compute; reflexivity. Qed.

(** ** The filesystem tree *)

Lemma Join_app (a b : list string) :
  gostrings.Join (a ++ b) = gostrings.Join a +:+ gostrings.Join b.
Proof.
  induction a as [|x a IH]; simpl; [reflexivity|].
  now rewrite IH, append_assoc.
Qed.

(** ** Deferral of symbolic ownership *)

Lemma stripSymbolic_none (who : option IntOrString) :
  symbolicName who = None -> stripSymbolic who = who.
Proof. unfold stripSymbolic. now intros ->. Qed.

Lemma stripSymbolic_not_symbolic (who : option IntOrString) :
  symbolicName (stripSymbolic who) = None.
Proof. destruct who as [[id|name]|]; reflexivity. Qed.

Lemma PostponeUnmaterializable_spec (m : FSNodeMetadata) (path : string)
    (node : FSNode) :
  metadataOf node = Some m ->
  PostponeUnmaterializable m path
  = (if deferred (path, node) then chownLine (path, node) else "", stripMetadata m).
Proof.
  intros Hm. unfold PostponeUnmaterializable, deferred, chownLine, hasSymbolicOwnership.
  simpl. rewrite Hm. unfold stripMetadata.
  destruct (symbolicName (Owner m)) eqn:Ho, (symbolicName (Group m)) eqn:Hg;
    try reflexivity.
  rewrite !stripSymbolic_none by assumption. now destruct m.
Qed.

Lemma chownLines_unfold (path : string) (node : FSNode) :
  chownLines path node
  = (if deferred (absolute (path, node)) then chownLine (absolute (path, node)) else "")
    +:+ match node with
        | FSDirectory entries _ =>
            gostrings.Join
              (map (fun entry : string * FSNode =>
                      chownLines (childPath path (fst entry)) (snd entry)) entries)
        | _ => ""
        end.
Proof.
  unfold chownLines at 1. destruct node as [entries m|content m|target]; simpl.
  - assert (gostrings.Join
              (map chownLine
                 (List.filter deferred
                    (map absolute
                       (flat_map (fun entry : string * FSNode =>
                                    let (name, child) := entry in
                                    Walk (childPath path name) child) entries))))
            = gostrings.Join
                (map (fun entry : string * FSNode =>
                        chownLines (childPath path (fst entry)) (snd entry)) entries))
      as Hbelow.
    { induction entries as [|[name child] entries IH]; simpl; [reflexivity|].
      rewrite map_app, List.filter_app, map_app, Join_app, IH. reflexivity. }
    destruct (deferred (absolute (path, FSDirectory entries m))); simpl;
      now rewrite Hbelow.
  - destruct (deferred (absolute (path, FSRegularFile content m))); simpl;
      now rewrite ?append_nil_r.
  - reflexivity.
Qed.

Lemma postponeWalk_spec (node : FSNode) :
  forall path : string,
    postponeWalk path node = (chownLines path node, stripTree node).
Proof.
  induction node as [entries m IH|content m|target] using FSNode_tree_ind;
    intros path; rewrite chownLines_unfold.
  - cbn [postponeWalk].
    rewrite (PostponeUnmaterializable_spec m ("/" +:+ path) (FSDirectory entries m))
      by reflexivity.
    cbv zeta.
    match goal with
    | |- context [fst (?children entries)] =>
        assert (children entries
                = (gostrings.Join
                     (map (fun entry : string * FSNode =>
                             chownLines (childPath path (fst entry)) (snd entry)) entries),
                   map (fun entry : string * FSNode =>
                          let (name, child) := entry in (name, stripTree child)) entries))
          as ->
    end.
    { induction IH as [|[name child] rest Hchild _ IHrest]; [reflexivity|].
      simpl in Hchild. rewrite Hchild, IHrest. reflexivity. }
    reflexivity.
  - cbn [postponeWalk].
    rewrite (PostponeUnmaterializable_spec m ("/" +:+ path) (FSRegularFile content m))
      by reflexivity.
    now rewrite append_nil_r.
  - reflexivity.
Qed.

Lemma stripTree_no_symbolic (node : FSNode) :
  forall path : string,
    Forall (fun visit : string * FSNode =>
              forall m, metadataOf (snd visit) = Some m ->
                        symbolicName (Owner m) = None /\ symbolicName (Group m) = None)
           (Walk path (stripTree node)).
Proof.
  induction node as [entries m IH|content m|target] using FSNode_tree_ind;
    intros path; simpl.
  - constructor.
    + simpl. intros m' [= <-]. split; apply stripSymbolic_not_symbolic.
    + revert path. induction IH as [|[name child] rest Hchild _ IHrest]; intros path;
        simpl; [constructor|].
      apply Forall_app. split; [apply Hchild | apply IHrest].
  - constructor; [|constructor].
    simpl. intros m' [= <-]. split; apply stripSymbolic_not_symbolic.
  - constructor; [|constructor]. simpl. intros m' [=].
Qed.

Lemma stripTree_paths (node : FSNode) :
  forall path : string,
    map fst (Walk path (stripTree node)) = map fst (Walk path node).
Proof.
  induction node as [entries m IH|content m|target] using FSNode_tree_ind;
    intros path; simpl; try reflexivity.
  f_equal. revert path.
  induction IH as [|[name child] rest Hchild _ IHrest]; intros path; simpl; [reflexivity|].
  now rewrite !map_app, Hchild, IHrest.
Qed.

Lemma postpone_SetupScript (pkg : Package) :
  SetupScript (postponeUnmaterializableFSMetadata pkg)
  = gostrings.Join (map chownLine (List.filter deferred (WalkFSWithAbsolutePaths pkg)))
    +:+ SetupScript pkg.
Proof.
  unfold postponeUnmaterializableFSMetadata, WalkFSWithAbsolutePaths,
    WalkFSWithRelativePaths.
  rewrite postponeWalk_spec. reflexivity.
Qed.

Lemma postpone_keeps (pkg : Package) :
  Requires (postponeUnmaterializableFSMetadata pkg) = Requires pkg
  /\ CleanupScript (postponeUnmaterializableFSMetadata pkg) = CleanupScript pkg.
Proof.
  unfold postponeUnmaterializableFSMetadata.
  destruct (postponeWalk "" (FSRoot pkg)). split; reflexivity.
Qed.

(** C4: after [postponeUnmaterializableFSMetadata] no directory and no
    regular file of the tree has an owner or a group given by name; the
    tree is otherwise unchanged (it is the old tree with those names
    removed, with the same paths); and the setup script is one [chown]
    line per directory or regular file that had one, in the order of the
    walk, followed by the previous setup script. *)
Theorem ownership_is_deferred_to_setup_script (pkg : Package) :
  let pkg' := postponeUnmaterializableFSMetadata pkg in
  Forall (fun visit : string * FSNode =>
            forall m, metadataOf (snd visit) = Some m ->
                      symbolicName (Owner m) = None /\ symbolicName (Group m) = None)
         (WalkFSWithAbsolutePaths pkg')
  /\ FSRoot pkg' = stripTree (FSRoot pkg)
  /\ map fst (WalkFSWithAbsolutePaths pkg') = map fst (WalkFSWithAbsolutePaths pkg)
  /\ SetupScript pkg'
     = gostrings.Join (map chownLine (List.filter deferred (WalkFSWithAbsolutePaths pkg)))
       +:+ SetupScript pkg.
Proof.
  unfold postponeUnmaterializableFSMetadata, WalkFSWithAbsolutePaths,
    WalkFSWithRelativePaths.
  rewrite postponeWalk_spec. cbv zeta. simpl FSRoot. simpl SetupScript.
  repeat split.
  - apply Forall_map. eapply Forall_impl; [apply stripTree_no_symbolic|].
    intros visit H. exact H.
  - rewrite !map_map. simpl.
    rewrite <- !(map_map fst (fun p => "/" +:+ p)), stripTree_paths. reflexivity.
Qed.

Example ownership_deferred_in_sample :
  SetupScript (postponeUnmaterializableFSMetadata samples.ownedPlugin)
  = "chown alice: /usr/share/holo/files/a" +:+ LF +:+ "echo setup".
Proof. vm_compute. reflexivity. Qed.

(** ** Holo integration *)

Lemma Split_nonempty (s : string) (sep : ascii) : gostrings.Split s sep <> [].
Proof.
  destruct s as [|c s]; simpl; [discriminate|].
  destruct (Ascii.eqb c sep); [discriminate|].
  destruct (gostrings.Split s sep); discriminate.
Qed.

(** A part without separator, followed by nothing or by a separator, is the
    first element of the split. *)
Lemma Split_part (part : string) (sep : ascii) :
  gostrings.ContainsAny part [sep] = false ->
  gostrings.Split part sep = [part]
  /\ forall more, gostrings.Split (part +:+ String sep more) sep
                  = part :: gostrings.Split more sep.
Proof.
  induction part as [|c part IH]; intros Hno.
  - split; [reflexivity|]. intros more. change ("" +:+ String sep more) with (String sep more).
    simpl. now rewrite Ascii.eqb_refl.
  - simpl in Hno. apply orb_false_iff in Hno as [Hc Hrest].
    rewrite orb_false_r in Hc. destruct (IH Hrest) as [IH1 IH2].
    split.
    + simpl. now rewrite Hc, IH1.
    + intros more. rewrite append_cons. simpl. now rewrite Hc, IH2.
Qed.

Lemma Split_under_prefix (pluginID rest : string) :
  gostrings.ContainsAny pluginID ["/"%char] = false ->
  rest = "" \/ (exists more, rest = "/" +:+ more) ->
  exists parts,
    gostrings.Split ("/usr/share/holo/" +:+ pluginID +:+ rest) "/"%char
    = "" :: "usr" :: "share" :: "holo" :: pluginID :: parts.
Proof.
  intros Hno Hrest.
  change ("/usr/share/holo/" +:+ pluginID +:+ rest)
    with ("" +:+ String "/"%char
            ("usr" +:+ String "/"%char
               ("share" +:+ String "/"%char
                  ("holo" +:+ String "/"%char (pluginID +:+ rest))))).
  rewrite !(fun part H => proj2 (Split_part part "/"%char H)) by reflexivity.
  destruct Hrest as [->|[more ->]].
  - rewrite append_nil_r, (proj1 (Split_part pluginID "/"%char Hno)).
    exists []. reflexivity.
  - change ("/" +:+ more) with (String "/"%char more).
    rewrite (proj2 (Split_part pluginID "/"%char Hno)).
    eexists. reflexivity.
Qed.

Lemma notePlugin_under (plugins : gset string) (visit : string * FSNode)
    (pluginID : string) :
  underPlugin pluginID (fst visit) -> pluginID ∈ notePlugin plugins visit.
Proof.
  intros (Hno & rest & Hpath & Hrest). unfold notePlugin. rewrite Hpath.
  rewrite HasPrefix_append.
  destruct (Split_under_prefix pluginID rest Hno Hrest) as [parts Hsplit].
  rewrite Hsplit. simpl. apply elem_of_union_l, elem_of_singleton. reflexivity.
Qed.

Lemma notePlugin_mono (plugins : gset string) (visit : string * FSNode) :
  plugins ⊆ notePlugin plugins visit.
Proof.
  unfold notePlugin.
  destruct (gostrings.HasPrefix (fst visit) "/usr/share/holo/"); [|set_solver].
  destruct (4 <? length (gostrings.Split (fst visit) "/"%char))%nat; set_solver.
Qed.

Lemma foldl_notePlugin_mono (visits : list (string * FSNode)) (plugins : gset string) :
  plugins ⊆ foldl notePlugin plugins visits.
Proof.
  revert plugins. induction visits as [|visit visits IH]; intros plugins; simpl.
  - set_solver.
  - etrans; [apply (notePlugin_mono plugins visit) | apply IH].
Qed.

Lemma collectPlugins_complete (pkg : Package) (pluginID : string) :
  hasPlugin pkg pluginID -> pluginID ∈ collectPlugins pkg.
Proof.
  intros (visit & Hin & Hunder). unfold collectPlugins.
  generalize (∅ : gset string) as plugins.
  induction (WalkFSWithAbsolutePaths pkg) as [|v visits IH]; intros plugins;
    [destruct Hin|].
  destruct Hin as [->|Hin]; simpl.
  - apply foldl_notePlugin_mono. now apply notePlugin_under.
  - now apply IH.
Qed.

Lemma existsb_countNamed (name : string) (rels : list PackageRelation) :
  existsb (fun rel => String.eqb (RelatedPackage rel) name) rels
  = negb (countNamed name rels =? 0)%nat.
Proof.
  unfold countNamed. induction rels as [|rel rels IH]; simpl; [reflexivity|].
  destruct (String.eqb (RelatedPackage rel) name); simpl; [reflexivity | exact IH].
Qed.

Lemma countNamed_app (name : string) (rels more : list PackageRelation) :
  countNamed name (rels ++ more) = (countNamed name rels + countNamed name more)%nat.
Proof. unfold countNamed. now rewrite List.filter_app, length_app. Qed.

Lemma requirePlugin_count (rels : list PackageRelation) (pluginID other : string) :
  countNamed ("holo-" +:+ pluginID) (requirePlugin rels other)
  = if String.eqb other pluginID
    then Nat.max 1 (countNamed ("holo-" +:+ pluginID) rels)
    else countNamed ("holo-" +:+ pluginID) rels.
Proof.
  unfold requirePlugin. rewrite existsb_countNamed, negb_involutive.
  destruct (String.eqb_spec other pluginID) as [->|Hne].
  - destruct (Nat.eqb_spec (countNamed ("holo-" +:+ pluginID) rels) 0) as [E|E].
    + rewrite countNamed_app, E. unfold countNamed. simpl.
      now rewrite String.eqb_refl.
    + destruct (countNamed ("holo-" +:+ pluginID) rels); [contradiction | reflexivity].
  - destruct (countNamed ("holo-" +:+ other) rels =? 0)%nat; [|reflexivity].
    rewrite countNamed_app. unfold countNamed at 2.
    cbn [List.filter RelatedPackage].
    destruct (String.eqb_spec ("holo-" +:+ other) ("holo-" +:+ pluginID)) as [E|_];
      [|apply Nat.add_0_r].
    apply (inj (String.append "holo-")) in E. contradiction.
Qed.

Lemma foldl_requirePlugin_count (order : list string) (rels : list PackageRelation)
    (pluginID : string) :
  countNamed ("holo-" +:+ pluginID) (foldl requirePlugin rels order)
  = if existsb (fun other => String.eqb other pluginID) order
    then Nat.max 1 (countNamed ("holo-" +:+ pluginID) rels)
    else countNamed ("holo-" +:+ pluginID) rels.
Proof.
  revert rels. induction order as [|other order IH]; intros rels; simpl; [reflexivity|].
  rewrite IH, requirePlugin_count.
  destruct (String.eqb other pluginID),
    (existsb (fun other => String.eqb other pluginID) order); simpl; try reflexivity.
  now rewrite Nat.max_assoc.
Qed.

Lemma foldl_requirePlugin_keeps (order : list string) (rels : list PackageRelation) :
  exists added, foldl requirePlugin rels order = rels ++ added.
Proof.
  revert rels. induction order as [|other order IH]; intros rels; simpl.
  - exists []. now rewrite app_nil_r.
  - destruct (IH (requirePlugin rels other)) as [added ->]. unfold requirePlugin.
    destruct (negb _).
    + eexists. now rewrite <- app_assoc.
    + now exists added.
Qed.

Lemma validRangeOrder_visits (rangeOrder : gset string -> list string)
    (plugins : gset string) (pluginID : string) :
  validRangeOrder rangeOrder -> pluginID ∈ plugins ->
  existsb (fun other => String.eqb other pluginID) (rangeOrder plugins) = true.
Proof.
  intros Hvalid Hin. apply existsb_exists. exists pluginID.
  split; [|apply String.eqb_refl].
  apply (Permutation_in _ (Permutation_sym (Hvalid plugins))).
  apply list_elem_of_In, elem_of_elements, Hin.
Qed.

Lemma doMagicalHoloIntegration_found (rangeOrder : gset string -> list string)
    (pkg : Package) (pluginID : string) :
  pluginID ∈ collectPlugins pkg ->
  doMagicalHoloIntegration rangeOrder pkg
  = setCleanupScript
      (setSetupScript
         (setRequires pkg
            (foldl requirePlugin (Requires pkg) (rangeOrder (collectPlugins pkg))))
         ("holo apply" +:+ LF +:+ SetupScript pkg))
      ("holo apply" +:+ LF +:+ CleanupScript pkg).
Proof.
  intros Hin. unfold doMagicalHoloIntegration.
  destruct (Nat.eqb_spec (size (collectPlugins pkg)) 0) as [Hsize|_]; [|reflexivity].
  apply size_empty_inv in Hsize. apply leibniz_equiv in Hsize.
  rewrite Hsize in Hin. now apply not_elem_of_empty in Hin.
Qed.

(** C3 (as amended): when the package has a node under
    [/usr/share/holo/] with plugin id [P], then after
    [doMagicalHoloIntegration] both scripts are ["holo apply"], a line
    feed and the previous script; the relations that [Requires] had are
    kept and it has one relation named [holo-P] if it had none or one
    before (and as many as before otherwise); this is so for every order in
    which [range] visits the plugin ids.  After the whole pre-processing
    the cleanup script still begins with ["holo apply"], and the setup
    script is the [chown] lines of the deferred ownership followed by
    ["holo apply"] and the previous script. *)
Theorem holo_integration (rangeOrder : gset string -> list string) (pkg : Package)
    (pluginID : string)
    (Hvalid : validRangeOrder rangeOrder) (Hplugin : hasPlugin pkg pluginID) :
  let pkg1 := doMagicalHoloIntegration rangeOrder pkg in
  let pkg2 := preprocess rangeOrder pkg in
  SetupScript pkg1 = "holo apply" +:+ LF +:+ SetupScript pkg
  /\ CleanupScript pkg1 = "holo apply" +:+ LF +:+ CleanupScript pkg
  /\ countNamed ("holo-" +:+ pluginID) (Requires pkg1)
     = Nat.max 1 (countNamed ("holo-" +:+ pluginID) (Requires pkg))
  /\ (exists added, Requires pkg1 = Requires pkg ++ added)
  /\ Requires pkg2 = Requires pkg1
  /\ CleanupScript pkg2 = "holo apply" +:+ LF +:+ CleanupScript pkg
  /\ SetupScript pkg2
     = gostrings.Join (map chownLine (List.filter deferred (WalkFSWithAbsolutePaths pkg)))
       +:+ "holo apply" +:+ LF +:+ SetupScript pkg.
Proof.
  intros pkg1 pkg2.
  pose proof (collectPlugins_complete pkg pluginID Hplugin) as Hin.
  assert (pkg1 = setCleanupScript
      (setSetupScript
         (setRequires pkg
            (foldl requirePlugin (Requires pkg) (rangeOrder (collectPlugins pkg))))
         ("holo apply" +:+ LF +:+ SetupScript pkg))
      ("holo apply" +:+ LF +:+ CleanupScript pkg)) as Hpkg1
    by (apply doMagicalHoloIntegration_found with pluginID; exact Hin).
  assert (FSRoot pkg1 = FSRoot pkg) as Hroot by now rewrite Hpkg1.
  pose proof (postpone_SetupScript pkg1) as Hsetup.
  change (postponeUnmaterializableFSMetadata pkg1) with pkg2 in Hsetup.
  assert (WalkFSWithAbsolutePaths pkg1 = WalkFSWithAbsolutePaths pkg) as Hwalk
    by (unfold WalkFSWithAbsolutePaths, WalkFSWithRelativePaths; now rewrite Hroot).
  rewrite Hwalk in Hsetup.
  destruct (postpone_keeps pkg1) as [Hreq Hcleanup].
  change (postponeUnmaterializableFSMetadata pkg1) with pkg2 in Hreq, Hcleanup.
  rewrite Hreq, Hcleanup, Hsetup, Hpkg1. simpl.
  repeat split.
  - rewrite foldl_requirePlugin_count.
    now rewrite (validRangeOrder_visits rangeOrder _ pluginID Hvalid Hin).
  - apply foldl_requirePlugin_keeps.
Qed.

Lemma elements_is_valid : validRangeOrder elements.
Proof. intros plugins. reflexivity. Qed.

Lemma reverse_elements_is_valid :
  validRangeOrder (fun plugins : gset string => rev (elements plugins)).
Proof. intros plugins. symmetry. apply Permutation_rev. Qed.

Lemma holo_integration_witness :
  SetupScript (doMagicalHoloIntegration elements samples.twoPlugins)
  = "holo apply" +:+ LF +:+ "echo setup".
Proof.
  apply (holo_integration elements samples.twoPlugins "files" elements_is_valid).
  exists ("/usr/share/holo/files/a", FSRegularFile "x" samples.plain).
  split.
  - vm_compute. tauto.
  - split; [reflexivity|]. exists "/a". split; [reflexivity|].
    right. exists "a". reflexivity.
Defined.

(** C3 as stated fails: a package whose file under [/usr/share/holo/files/]
    is owned by name has the node the claim asks for, and after the
    pre-processing of [Build] its setup script begins with the [chown]
    line of that file, not with ["holo apply"]. *)
Lemma setup_script_begins_with_chown :
  hasPlugin samples.ownedPlugin "files"
  /\ SetupScript (preprocess elements samples.ownedPlugin)
     = "chown alice: /usr/share/holo/files/a" +:+ LF +:+ "holo apply" +:+ LF +:+ "echo setup"
  /\ gostrings.HasPrefix (SetupScript (preprocess elements samples.ownedPlugin)) "holo apply"
     = false.
Proof.
  split; [|split; vm_compute; reflexivity].
  exists ("/usr/share/holo/files/a", FSRegularFile "x" samples.ownedByName).
  split.
  - vm_compute. tauto.
  - split; [reflexivity|]. exists "/a". split; [reflexivity|].
    right. exists "a". reflexivity.
Qed.

(** ** The build orchestrator *)

Section OrchestratorProperties.
Context {World : Type}.
Implicit Types (sys : System.t World) (generator : Generator.t World).
Implicit Types (st : State World) (events resets : list Event).

Lemma bind_inv {A B : Type} (m : M A) (k : A -> M B) st (r : result B) st' :
  bind m k st = (r, st') ->
  (exists e, m st = (Abort e, st') /\ r = Abort e)
  \/ (exists a st1, m st = (Done a, st1) /\ k a st1 = (r, st')).
Proof.
  unfold bind. destruct (m st) as [[a|e] st1]; intros H.
  - right. now exists a, st1.
  - left. injection H as <- <-. now exists e.
Qed.

Lemma system_inv (c : Call) (op : World -> option error * World) st
    (r : result unit) st' :
  system c op st = (r, st') ->
  exists err w,
    op (world st) = (err, w)
    /\ st' = {| pkg := pkg st; world := w; trace := trace st ++ [(c, err)] |}
    /\ r = match err with Some e => Abort e | None => Done tt end.
Proof.
  unfold system. destruct (op (world st)) as [err w]. intros H.
  exists err, w. destruct err; injection H as <- <-; repeat split.
Qed.

Lemma generate_inv (c : Call)
    (method : Package -> World -> (list byte * option error) * (Package * World))
    st (r : result (list byte * option error)) st' :
  generate c method st = (r, st') ->
  exists pkgBytes err p w,
    method (pkg st) (world st) = ((pkgBytes, err), (p, w))
    /\ st' = {| pkg := p; world := w; trace := trace st ++ [(c, err)] |}
    /\ r = Done (pkgBytes, err).
Proof.
  unfold generate. destruct (method (pkg st) (world st)) as [[pkgBytes err] [p w]].
  intros H. injection H as <- <-. now exists pkgBytes, err, p, w.
Qed.

Lemma walkRun_cons (c : Call) (r : result unit) (events : list Event) :
  isWalkCall c = true -> walkRun r events -> walkRun r ((c, None) :: events).
Proof.
  intros Hc [Hwalk Hrun]. split; [now constructor|].
  destruct r as [[]|e].
  - now constructor.
  - destruct Hrun as (before & c' & -> & Hbefore).
    exists ((c, None) :: before), c'. split; [reflexivity | now constructor].
Qed.

Lemma walkRun_failed (c : Call) (e : error) :
  isWalkCall c = true -> walkRun (Abort e) [(c, Some e)].
Proof.
  intros Hc. split; [now repeat constructor|].
  exists [], c. split; [reflexivity | constructor].
Qed.

Ltac prefix_with tail :=
  exists tail; unfold successfulFallback;
  repeat (rewrite <- ?app_assoc; cbn [app]); reflexivity.

Lemma resetTimestamps_run sys (visits : list (string * option error)) st
    (r : result unit) st' :
  resetTimestamps sys visits st = (r, st') ->
  pkg st' = pkg st
  /\ exists events, trace st' = trace st ++ events /\ walkRun r events.
Proof.
  revert st. induction visits as [|[path err] visits IH]; intros st Hrun.
  - injection Hrun as <- <-. split; [reflexivity|].
    exists []. rewrite app_nil_r. split; [reflexivity|]. split; constructor.
  - cbn [resetTimestamps] in Hrun.
    apply bind_inv in Hrun as [(e & [=] & _)|([] & st1 & [= <-] & Hrun)].
    destruct err as [e|].
    + injection Hrun as <- <-. split; [reflexivity|].
      exists [(CallWalkFunc path, Some e)]. split; [reflexivity|].
      now apply walkRun_failed.
    + apply bind_inv in Hrun as [(e & Hsys & ->)|([] & st2 & Hsys & Hrun)];
        apply system_inv in Hsys as (err & w & _ & -> & Herr).
      * destruct err as [e'|]; [injection Herr as ->|discriminate].
        split; [reflexivity|].
        exists [(CallWalkFunc path, None); (CallResetTimestamp path, Some e')].
        cbn [trace]. rewrite <- app_assoc. split; [reflexivity|].
        apply walkRun_cons; [reflexivity|]. now apply walkRun_failed.
      * destruct err as [e'|]; [discriminate|].
        apply IH in Hrun as (Hpkg & events & Htrace & Hwalk).
        split; [exact Hpkg|].
        exists ((CallWalkFunc path, None) :: (CallResetTimestamp path, None) :: events).
        rewrite Htrace. cbn [trace]. rewrite <- !app_assoc. split; [reflexivity|].
        now repeat apply walkRun_cons.
Qed.

(** [materializeFSEntries] calls [Materialize] and then, in a reproducible
    build, the walk. *)
Lemma materializeFSEntries_run sys (rootPath : string) (buildReproducibly : bool) st
    (r : result unit) st' :
  materializeFSEntries sys rootPath buildReproducibly st = (r, st') ->
  pkg st' = pkg st
  /\ exists o resets,
       trace st' = trace st ++ (CallMaterialize rootPath, o) :: resets
       /\ (buildReproducibly = false -> resets = [])
       /\ match o with
          | Some e => resets = [] /\ r = Abort e
          | None => walkRun r resets
          end.
Proof.
  unfold materializeFSEntries. intros Hrun.
  apply bind_inv in Hrun as [(e & [=] & _)|(p & st0 & [= <- <-] & Hrun)].
  apply bind_inv in Hrun as [(e & Hsys & ->)|([] & st1 & Hsys & Hrun)];
    apply system_inv in Hsys as (err & w & _ & -> & Herr).
  - destruct err as [e'|]; [injection Herr as ->|discriminate].
    split; [reflexivity|]. exists (Some e'), []. repeat split.
  - destruct err as [e'|]; [discriminate|].
    destruct buildReproducibly.
    + apply bind_inv in Hrun as [(e & [=] & _)|(w0 & st2 & [= <- <-] & Hrun)].
      apply resetTimestamps_run in Hrun as (Hpkg & events & Htrace & Hwalk).
      split; [exact Hpkg|]. exists None, events. rewrite Htrace. cbn [trace].
      rewrite <- app_assoc. split; [reflexivity|]. split; [discriminate | exact Hwalk].
    + injection Hrun as <- <-. split; [reflexivity|]. exists None, [].
      split; [reflexivity|]. split; [reflexivity|]. split; constructor.
Qed.

Lemma walk_calls_are_fallback (events : list Event) :
  Forall (fun ev : Event => isWalkCall (fst ev) = true) events ->
  Forall (fun ev : Event => isFallbackCall (fst ev) = true) events.
Proof.
  intros H. eapply Forall_impl; [exact H|].
  intros [c o]. simpl. now destruct c.
Qed.

Ltac fallback_calls :=
  repeat match goal with
         | H : Forall (fun ev : Event => isWalkCall (fst ev) = true) ?l
           |- Forall _ ?l => exact (walk_calls_are_fallback _ H)
         | |- Forall _ (_ ++ _) => apply Forall_app; split
         | |- Forall _ (_ :: _) => constructor; [reflexivity|]
         | |- Forall _ [] => constructor
         end.

Lemma fallback_run sys generator (rootPath : string) (buildReproducibly : bool) st
    (r : result (list byte)) st' :
  fallback sys generator rootPath buildReproducibly st = (r, st') ->
  exists events resets,
    trace st' = trace st ++ events
    /\ Forall (fun ev : Event => isFallbackCall (fst ev) = true) events
    /\ Forall (fun ev : Event => isWalkCall (fst ev) = true) resets
    /\ succeeded resets
    /\ (buildReproducibly = false -> resets = [])
    /\ match r with
       | Done pkgBytes =>
           events = successfulFallback rootPath buildReproducibly resets
       | Abort e =>
           exists before c,
             events = before ++ [(c, Some e)]
             /\ (before ++ [(c, None)])
                  `prefix_of` successfulFallback rootPath buildReproducibly resets
       end.
Proof.
  unfold fallback. intros Hrun.
  apply bind_inv in Hrun as [(e & Hsys & ->)|([] & st1 & Hsys & Hrun)];
    apply system_inv in Hsys as (err & w1 & _ & -> & Herr).
  { destruct err as [e'|]; [injection Herr as ->|discriminate].
    exists [(CallRemoveAll rootPath, Some e')], []. cbn [trace].
    split; [reflexivity|]. split; [fallback_calls|].
    split; [constructor|]. split; [constructor|].
    split; [reflexivity|].
    exists [], (CallRemoveAll rootPath). split; [reflexivity|].
    prefix_with [(CallMaterialize rootPath, @None error);
                 (CallBuild rootPath buildReproducibly, None);
                 (CallRemoveAll rootPath, None)]. }
  destruct err as [e'|]; [discriminate|]. clear Herr.
  apply bind_inv in Hrun as [(e & Hmat & ->)|([] & st2 & Hmat & Hrun)];
    apply materializeFSEntries_run in Hmat
      as (Hpkg & o & walked & Htrace & Hplain & Hm); cbn [trace pkg] in Htrace, Hpkg.
  { destruct o as [e'|].
    - destruct Hm as [-> [= ->]].
      exists [(CallRemoveAll rootPath, None); (CallMaterialize rootPath, Some e')], [].
      rewrite Htrace, <- app_assoc.
      split; [reflexivity|]. split; [fallback_calls|].
    split; [constructor|]. split; [constructor|].
      split; [reflexivity|].
      exists [(CallRemoveAll rootPath, None)], (CallMaterialize rootPath).
      split; [reflexivity|].
      prefix_with [(CallBuild rootPath buildReproducibly, @None error);
                   (CallRemoveAll rootPath, None)].
    - destruct Hm as [Hwalk (before & c & -> & Hbefore)].
      apply Forall_app in Hwalk as [Hwalk1 Hwalk2].
      exists ([(CallRemoveAll rootPath, None); (CallMaterialize rootPath, None)]
                ++ before ++ [(c, Some e)]), (before ++ [(c, None)]).
      rewrite Htrace, <- app_assoc.
      split; [reflexivity|]. split; [fallback_calls|].
      split; [apply Forall_app; split; [exact Hwalk1|];
              inversion Hwalk2; subst; now repeat constructor|].
      split; [apply Forall_app; split; [exact Hbefore | now repeat constructor]|].
      split; [intros Hfalse; specialize (Hplain Hfalse); now destruct before|].
      exists ([(CallRemoveAll rootPath, None); (CallMaterialize rootPath, None)] ++ before), c.
      split; [now rewrite <- !app_assoc|].
      prefix_with [(CallBuild rootPath buildReproducibly, @None error);
                   (CallRemoveAll rootPath, None)]. }
  destruct o as [e'|]; [destruct Hm as [_ [=]]|]. destruct Hm as [Hwalk Hok].
  apply bind_inv in Hrun as [(e & Hgen & _)|(built & st3 & Hgen & Hrun)];
    apply generate_inv in Hgen as (pkgBytes & err & p2 & w2 & _ & -> & Hbuilt);
    [discriminate|injection Hbuilt as ->].
  destruct err as [e|].
  { injection Hrun as <- <-.
    exists ([(CallRemoveAll rootPath, None); (CallMaterialize rootPath, None)]
              ++ walked ++ [(CallBuild rootPath buildReproducibly, Some e)]), walked.
    cbn [trace]. rewrite Htrace, <- !app_assoc.
    split; [reflexivity|]. split; [fallback_calls|].
    split; [exact Hwalk|]. split; [exact Hok|].
    split; [exact Hplain|].
    exists ([(CallRemoveAll rootPath, None); (CallMaterialize rootPath, None)] ++ walked),
      (CallBuild rootPath buildReproducibly).
    split; [now rewrite <- !app_assoc|].
    prefix_with [(CallRemoveAll rootPath, @None error)]. }
  apply bind_inv in Hrun as [(e & Hsys & ->)|([] & st4 & Hsys & Hrun)];
    apply system_inv in Hsys as (err & w3 & _ & -> & Herr).
  - destruct err as [e'|]; [injection Herr as ->|discriminate].
    exists ([(CallRemoveAll rootPath, None); (CallMaterialize rootPath, None)]
              ++ walked ++ [(CallBuild rootPath buildReproducibly, None);
                            (CallRemoveAll rootPath, Some e')]), walked.
    cbn [trace]. rewrite Htrace, <- !app_assoc.
    split; [reflexivity|]. split; [fallback_calls|].
    split; [exact Hwalk|]. split; [exact Hok|].
    split; [exact Hplain|].
    exists ([(CallRemoveAll rootPath, None); (CallMaterialize rootPath, None)]
              ++ walked ++ [(CallBuild rootPath buildReproducibly, None)]),
      (CallRemoveAll rootPath).
    split; [now rewrite <- !app_assoc|].
    exists []. unfold successfulFallback.
    repeat (rewrite <- ?app_assoc; cbn [app]). now rewrite ?app_nil_r.
  - destruct err as [e'|]; [discriminate|]. injection Hrun as <- <-.
    exists (successfulFallback rootPath buildReproducibly walked), walked.
    cbn [trace]. rewrite Htrace. unfold successfulFallback. rewrite <- !app_assoc.
    split; [reflexivity|]. split; [fallback_calls|].
    split; [exact Hwalk|]. split; [exact Hok|].
    split; [exact Hplain | reflexivity].
Qed.

Lemma output_run sys generator (printToStdout : bool) (pkgBytes : list byte) st
    (r : result unit) st' :
  output sys generator printToStdout pkgBytes st = (r, st') ->
  exists out,
    trace st' = trace st ++ out
    /\ Forall (fun ev : Event => isFallbackCall (fst ev) = false
                                 /\ forall b, fst ev <> CallBuildInMemory b) out.
Proof.
  unfold output. intros Hrun. destruct printToStdout.
  - apply system_inv in Hrun as (err & w & _ & -> & _).
    eexists. split; [reflexivity|]. repeat constructor. discriminate.
  - apply bind_inv in Hrun as [(e & [=] & _)|(p & st0 & [= <- <-] & Hrun)].
    destruct (gostrings.ContainsAny _ _).
    + injection Hrun as <- <-. exists []. rewrite app_nil_r. now split.
    + apply system_inv in Hrun as (err & w & _ & -> & _).
      eexists. split; [reflexivity|]. repeat constructor. discriminate.
Qed.

(** [Build] up to the in-memory attempt, and what it goes on with. *)
Lemma Build_run (rangeOrder : gset string -> list string) sys generator
    (printToStdout buildReproducibly : bool) (p : Package) (w : World) :
  Build rangeOrder sys generator printToStdout buildReproducibly (start p w)
  = match Generator.BuildInMemory generator (preprocess rangeOrder p) buildReproducibly w with
    | ((pkgBytes, None), (p1, w1)) =>
        output sys generator printToStdout pkgBytes
          {| pkg := p1; world := w1;
             trace := [(CallBuildInMemory buildReproducibly, None)] |}
    | ((_, Some UnsupportedBuildMethodError), (p1, w1)) =>
        bind (fallback sys generator (rootPathOf p1) buildReproducibly)
             (output sys generator printToStdout)
          {| pkg := p1; world := w1;
             trace := [(CallBuildInMemory buildReproducibly,
                        Some UnsupportedBuildMethodError)] |}
    | ((_, Some (OtherError msg)), (p1, w1)) =>
        (Abort (OtherError msg),
         {| pkg := p1; world := w1;
            trace := [(CallBuildInMemory buildReproducibly, Some (OtherError msg))] |})
    end.
Proof.
  unfold Build, start, preprocess, bind at 1, update. unfold bind at 1.
  unfold bind at 1, generate. cbn [pkg world trace app].
  destruct (Generator.BuildInMemory generator _ buildReproducibly w)
    as [[pkgBytes [[|msg]|]] [p1 w1]]; reflexivity.
Qed.

(** C7: [Build] first calls [BuildInMemory], once.  It makes calls of the
    filesystem-rooted build, beginning with the removal of the root
    directory, exactly when that attempt returned
    [UnsupportedBuildMethodError]; when the attempt returned another error,
    [Build] makes no further call and returns that error. *)
Theorem in_memory_build_first (rangeOrder : gset string -> list string) sys generator
    (printToStdout buildReproducibly : bool) (p : Package) (w : World) :
  let attempt :=
    Generator.BuildInMemory generator (preprocess rangeOrder p) buildReproducibly w in
  let err := snd (fst attempt) in
  let run := Build rangeOrder sys generator printToStdout buildReproducibly (start p w) in
  exists rest,
    trace (snd run) = (CallBuildInMemory buildReproducibly, err) :: rest
    /\ Forall (fun ev : Event => forall b, fst ev <> CallBuildInMemory b) rest
    /\ (Exists (fun ev : Event => isFallbackCall (fst ev) = true) rest
        <-> err = Some UnsupportedBuildMethodError)
    /\ (err = Some UnsupportedBuildMethodError ->
        exists o rest', rest = (CallRemoveAll (rootPathOf (fst (snd attempt))), o) :: rest')
    /\ (forall msg, err = Some (OtherError msg) ->
        rest = [] /\ fst run = Abort (OtherError msg)).
Proof.
  cbv zeta. rewrite Build_run.
  destruct (Generator.BuildInMemory generator _ buildReproducibly w)
    as [[pkgBytes [[|msg]|]] [p1 w1]]; cbn [fst snd].
  - destruct (bind _ _ _) as [r st'] eqn:Hrun. cbn [snd].
    apply bind_inv in Hrun as [(e & Hfb & ->)|(bytes & st1 & Hfb & Hout)];
      apply fallback_run in Hfb
        as (events & resets & Htrace & Hcalls & _ & _ & _ & Hshape);
      cbn [trace] in Htrace.
    + exists events. rewrite Htrace. split; [reflexivity|].
      destruct Hshape as (before & c & -> & [tail Hprefix]).
      split; [eapply Forall_impl; [exact Hcalls|];
              intros [c' o] Hc b; simpl in *; now destruct c'|].
      split; [split; [reflexivity|]; intros _|].
      * apply Exists_exists. destruct before as [|ev before].
        -- exists (c, Some e). split; [left|]. now inversion Hcalls.
        -- exists ev. split; [left|]. now inversion Hcalls.
      * split; [|discriminate]. intros _.
        unfold successfulFallback in Hprefix. cbn [app] in Hprefix.
        destruct before as [|ev before]; injection Hprefix as <-; eauto.
    + apply output_run in Hout as (out & Htrace' & Hout).
      exists (events ++ out). rewrite Htrace', Htrace. split; [reflexivity|].
      split; [apply Forall_app; split;
              [eapply Forall_impl; [exact Hcalls|];
               intros [c' o] Hc b; simpl in *; now destruct c'
              |eapply Forall_impl; [exact Hout|]; now intros ev [_ H]]|].
      rewrite Hshape. unfold successfulFallback. cbn [app].
      split; [split; [reflexivity|]; intros _; now left|].
      split; [eauto | discriminate].
  - exists []. split; [reflexivity|]. split; [constructor|].
    split; [split; [now intros ?%Exists_nil | discriminate]|].
    split; [discriminate|]. intros msg' [= ->]. now split.
  - destruct (output _ _ _ _ _) as [r st'] eqn:Hrun. cbn [snd].
    apply output_run in Hrun as (out & Htrace & Hout). cbn [trace] in Htrace.
    exists out. split; [exact Htrace|].
    split; [eapply Forall_impl; [exact Hout|]; now intros ev [_ H]|].
    split; [split; [|discriminate]|split; discriminate].
    intros Hex. apply Exists_exists in Hex as (ev & Hin & Hfb).
    rewrite Forall_forall in Hout. destruct (Hout ev Hin) as [Hno _]. congruence.
Qed.

(** C8: when the in-memory attempt returns [UnsupportedBuildMethodError],
    the calls that follow it are those of a filesystem-rooted build in
    which nothing fails (the root directory is removed, the tree is
    materialized, the walk resets the timestamps in a reproducible build,
    the generator builds, the root directory is removed) up to the first
    call that returns an error.  Either none does, and then the root
    directory has been removed before the package is written; or the
    failed call is the last call that [Build] makes, nothing is removed
    after it, and [Build] returns its error.  In both cases the stale root
    directory is removed, with success, before the tree is materialized. *)
Theorem fallback_root_directory (rangeOrder : gset string -> list string) sys generator
    (printToStdout buildReproducibly : bool) (p : Package) (w : World)
    (Hunsupported :
       snd (fst (Generator.BuildInMemory generator (preprocess rangeOrder p)
                   buildReproducibly w))
       = Some UnsupportedBuildMethodError) :
  let attempt :=
    Generator.BuildInMemory generator (preprocess rangeOrder p) buildReproducibly w in
  let rootPath := rootPathOf (fst (snd attempt)) in
  let run := Build rangeOrder sys generator printToStdout buildReproducibly (start p w) in
  exists events resets out,
    trace (snd run)
    = (CallBuildInMemory buildReproducibly, Some UnsupportedBuildMethodError)
        :: events ++ out
    /\ Forall (fun ev : Event => isWalkCall (fst ev) = true) resets
    /\ succeeded resets
    /\ (buildReproducibly = false -> resets = [])
    /\ Forall (fun ev : Event => isFallbackCall (fst ev) = false) out
    /\ (events = successfulFallback rootPath buildReproducibly resets
        \/ exists e before c,
             events = before ++ [(c, Some e)]
             /\ (before ++ [(c, None)])
                  `prefix_of` successfulFallback rootPath buildReproducibly resets
             /\ out = []
             /\ fst run = Abort e).
Proof.
  cbv zeta. rewrite Build_run.
  destruct (Generator.BuildInMemory generator _ buildReproducibly w)
    as [[pkgBytes err] [p1 w1]]. cbn [fst snd] in *. subst err.
  destruct (bind _ _ _) as [r st'] eqn:Hrun. cbn [fst snd].
  apply bind_inv in Hrun as [(e & Hfb & ->)|(bytes & st1 & Hfb & Hout)];
    apply fallback_run in Hfb
      as (events & resets & Htrace & _ & Hwalk & Hok & Hplain & Hshape);
    cbn [trace] in Htrace.
  - exists events, resets, []. rewrite Htrace, app_nil_r.
    split; [reflexivity|]. split; [exact Hwalk|]. split; [exact Hok|].
    split; [exact Hplain|]. split; [constructor|].
    right. destruct Hshape as (before & c & -> & Hprefix).
    exists e, before, c. repeat split; assumption.
  - apply output_run in Hout as (out & Htrace' & Hout).
    exists events, resets, out. rewrite Htrace', Htrace.
    split; [reflexivity|]. split; [exact Hwalk|]. split; [exact Hok|].
    split; [exact Hplain|].
    split; [eapply Forall_impl; [exact Hout|]; now intros ev [H _]|].
    left. exact Hshape.
Qed.

Lemma preprocess_keeps_identity (rangeOrder : gset string -> list string) (p : Package) :
  Name (preprocess rangeOrder p) = Name p
  /\ Version (preprocess rangeOrder p) = Version p.
Proof.
  unfold preprocess, postponeUnmaterializableFSMetadata.
  destruct (postponeWalk "" (FSRoot (doMagicalHoloIntegration rangeOrder p))).
  unfold doMagicalHoloIntegration.
  destruct (size (collectPlugins p) =? 0)%nat; split; reflexivity.
Qed.

Lemma fallback_begins_by_removing_root sys generator (rootPath : string)
    (buildReproducibly : bool) st (r : result (list byte)) st' :
  fallback sys generator rootPath buildReproducibly st = (r, st') ->
  exists o rest, trace st' = trace st ++ (CallRemoveAll rootPath, o) :: rest.
Proof.
  intros Hrun.
  apply fallback_run in Hrun as (events & resets & -> & _ & _ & _ & _ & Hshape).
  destruct r as [pkgBytes|e].
  - rewrite Hshape. unfold successfulFallback. cbn [app]. eauto.
  - destruct Hshape as (before & c & -> & [tail Hprefix]).
    unfold successfulFallback in Hprefix. cbn [app] in Hprefix.
    destruct before as [|ev before]; injection Hprefix as <-; cbn [app]; eauto.
Qed.

(** With a generator whose [BuildInMemory] is that of the filesystem-rooted
    Pacman generator, [Build] always goes on to the filesystem-rooted
    build, in the root directory named after the package. *)
Lemma pacman_fs_build_falls_back (rangeOrder : gset string -> list string) sys generator
    (printToStdout buildReproducibly : bool) (p : Package) (w : World) :
  Generator.BuildInMemory generator = pacman_fs.BuildInMemory ->
  exists o rest,
    trace (snd (Build rangeOrder sys generator printToStdout buildReproducibly (start p w)))
    = (CallBuildInMemory buildReproducibly, Some UnsupportedBuildMethodError)
        :: (CallRemoveAll ("./holo-build-" +:+ Name p +:+ "-" +:+ Version p), o) :: rest.
Proof.
  intros Hgen. rewrite Build_run, Hgen. unfold pacman_fs.BuildInMemory.
  destruct (preprocess_keeps_identity rangeOrder p) as [Hname Hversion].
  unfold rootPathOf. rewrite Hname, Hversion.
  destruct (bind _ _ _) as [r st'] eqn:Hrun. cbn [snd].
  apply bind_inv in Hrun as [(e & Hfb & _)|(bytes & st1 & Hfb & Hout)];
    apply fallback_begins_by_removing_root in Hfb as (o & rest & Htrace);
    cbn [trace app] in Htrace.
  - now exists o, rest.
  - apply output_run in Hout as (out & -> & _). rewrite Htrace.
    exists o, (rest ++ out). reflexivity.
Qed.

End OrchestratorProperties.

Lemma fallback_root_directory_witness :
  let attempt :=
    Generator.BuildInMemory samples.rootedGenerator
      (preprocess elements samples.twoPlugins) true ["./holo-build-sample-1.2-3"] in
  let rootPath := rootPathOf (fst (snd attempt)) in
  let run :=
    Build elements (samples.system true) samples.rootedGenerator true true
      (start samples.twoPlugins ["./holo-build-sample-1.2-3"]) in
  exists events resets out,
    trace (snd run)
    = (CallBuildInMemory true, Some UnsupportedBuildMethodError) :: events ++ out
    /\ Forall (fun ev : Event => isWalkCall (fst ev) = true) resets
    /\ succeeded resets
    /\ (true = false -> resets = [])
    /\ Forall (fun ev : Event => isFallbackCall (fst ev) = false) out
    /\ (events = successfulFallback rootPath true resets
        \/ exists e before c,
             events = before ++ [(c, Some e)]
             /\ (before ++ [(c, None)]) `prefix_of` successfulFallback rootPath true resets
             /\ out = []
             /\ fst run = Abort e).
Proof.
  apply (fallback_root_directory elements (samples.system true) samples.rootedGenerator
           true true samples.twoPlugins ["./holo-build-sample-1.2-3"]).
  reflexivity.
Defined.

(** On the sample disk: when [Materialize] fails, [Build] returns its error
    and the root directory stays on the disk; when nothing fails, the root
    directory is gone at the end.  In both runs the stale directory is
    removed first. *)
Example root_directory_on_sample_disk :
  let root := "./holo-build-sample-1.2-3" in
  let failed :=
    Build elements (samples.system true) samples.rootedGenerator true false
      (start samples.twoPlugins [root]) in
  let built :=
    Build elements (samples.system false) samples.rootedGenerator true true
      (start samples.twoPlugins [root]) in
  fst failed = Abort (OtherError "no space left on device")
  /\ world (snd failed) = [root]
  /\ trace (snd failed)
     = [(CallBuildInMemory false, Some UnsupportedBuildMethodError);
        (CallRemoveAll root, None);
        (CallMaterialize root, Some (OtherError "no space left on device"))]
  /\ fst built = Done tt
  /\ world (snd built) = []
  /\ trace (snd built)
     = [(CallBuildInMemory true, Some UnsupportedBuildMethodError);
        (CallRemoveAll root, None);
        (CallMaterialize root, None);
        (CallWalkFunc root, None); (CallResetTimestamp root, None);
        (CallWalkFunc (root +:+ "/etc"), None);
        (CallResetTimestamp (root +:+ "/etc"), None);
        (CallBuild root true, None);
        (CallRemoveAll root, None);
        (CallStdoutWrite [x01; x02], None)].
Proof. vm_compute. repeat split. Qed.

(** ** Reproducible builds *)

(** In reproducible mode [.PKGINFO] is the same whatever the clock and the
    version of holo-build are. *)
Lemma pkginfo_reproducible_ignores_env `{pacman.Helpers} (env1 env2 : pacman.Env)
    (pkg : Package) :
  pacman.pkginfo env1 pkg true = pacman.pkginfo env2 pkg true.
Proof. reflexivity. Qed.

(** Otherwise it has the version in its first line and the build date. *)
Example pkginfo_embeds_clock_and_version :
  pacman.pkginfo (H := pacman.specHelpers) samples.env1 samples.twoPlugins false
  <> pacman.pkginfo (H := pacman.specHelpers) samples.env2 samples.twoPlugins false.
Proof. vm_compute. discriminate. Qed.

Section Timestamps.
Context {World : Type}.

Lemma resetTimestamps_done (sys : System.t World)
    (visits : list (string * option error)) (st st' : State World) :
  resetTimestamps sys visits st = (Done tt, st') ->
  trace st' = trace st ++ resetsOf visits.
Proof.
  revert st. induction visits as [|[path err] visits IH]; intros st Hrun.
  - injection Hrun as <-. now rewrite app_nil_r.
  - cbn [resetTimestamps] in Hrun.
    apply bind_inv in Hrun as [(e & _ & [=])|([] & st1 & [= <-] & Hrun)].
    destruct err as [e|]; [discriminate|].
    apply bind_inv in Hrun as [(e & _ & [=])|([] & st2 & Hsys & Hrun)].
    apply system_inv in Hsys as (err & w & _ & -> & Herr).
    destruct err as [e|]; [discriminate|].
    apply IH in Hrun. rewrite Hrun. cbn [trace resetsOf flat_map fst app].
    now rewrite <- !app_assoc.
Qed.

(** When [materializeFSEntries] returns no error in a reproducible build,
    it has reset the timestamp of every path that the walk of the
    materialized root directory visits. *)
Lemma materializeFSEntries_resets_every_timestamp (sys : System.t World)
    (rootPath : string) (st st' : State World) :
  materializeFSEntries sys rootPath true st = (Done tt, st') ->
  exists w : World,
    System.Materialize sys (FSRoot (pkg st)) rootPath (world st) = (None, w)
    /\ trace st'
       = trace st ++ (CallMaterialize rootPath, None)
                       :: resetsOf (System.FilepathWalk sys rootPath w).
Proof.
  unfold materializeFSEntries. intros Hrun.
  apply bind_inv in Hrun as [(e & _ & [=])|(p & st0 & [= <- <-] & Hrun)].
  apply bind_inv in Hrun as [(e & _ & [=])|([] & st1 & Hsys & Hrun)].
  apply system_inv in Hsys as (err & w & Hmat & -> & Herr).
  destruct err as [e|]; [discriminate|].
  apply bind_inv in Hrun as [(e & _ & [=])|(w0 & st2 & [= <- <-] & Hrun)].
  apply resetTimestamps_done in Hrun. exists w. split; [exact Hmat|].
  rewrite Hrun. cbn [trace world]. now rewrite <- app_assoc.
Qed.

End Timestamps.

(** C1 fails on the package with files of two Holo plugins: [range] may
    visit the two plugin ids in either order, the requirements are added in
    that order, and [.PKGINFO] lists them in that order.  Two reproducible
    builds of the same package then differ. *)
Theorem reproducible_build_depends_on_range_order :
  let order1 := elements : gset string -> list string in
  let order2 := fun plugins : gset string => rev (elements plugins) in
  let p1 := preprocess order1 samples.twoPlugins in
  let p2 := preprocess order2 samples.twoPlugins in
  validRangeOrder order1
  /\ validRangeOrder order2
  /\ map RelatedPackage (Requires p1) = ["holo-users-groups"; "holo-files"]
  /\ map RelatedPackage (Requires p2) = ["holo-files"; "holo-users-groups"]
  /\ pacman.pkginfo (H := pacman.specHelpers) samples.env1 p1 true
     <> pacman.pkginfo (H := pacman.specHelpers) samples.env1 p2 true
  /\ p1 <> p2.
Proof.
  cbv zeta.
  split; [apply elements_is_valid|]. split; [apply reverse_elements_is_valid|].
  split; [vm_compute; reflexivity|]. split; [vm_compute; reflexivity|].
  split.
  - vm_compute. discriminate.
  - intros Heq. apply (f_equal (fun p => map RelatedPackage (Requires p))) in Heq.
    vm_compute in Heq. discriminate.
Qed.

(** * Further properties *)

(** ** The RPM generator: alignment and file names *)

(** X1: [appendAlignedTo8Byte a b] is [a], zero bytes and [b], where the
    number of zero bytes is the distance from the length of [a] to the
    next multiple of 8: it is less than 8, it is 0 when the length of [a]
    is a multiple of 8, and [b] begins at a multiple of 8. *)
Theorem appendAlignedTo8Byte_aligns (a b : list byte) :
  let pad := ((8 - length a mod 8) mod 8)%nat in
  rpm.appendAlignedTo8Byte a b = a ++ repeat x00 pad ++ b
  /\ (pad < 8)%nat
  /\ ((length a + pad) mod 8 = 0)%nat
  /\ ((length a mod 8 = 0)%nat -> rpm.appendAlignedTo8Byte a b = a ++ b)
  /\ length (rpm.appendAlignedTo8Byte a b) = (length a + pad + length b)%nat.
Proof.
  cbv zeta.
  destruct (alignTo8Byte_spec a) as (pad & Hpad & Hmod & Heq).
  assert (pad = (8 - length a mod 8) mod 8)%nat as Hexact.
  { pose proof (Nat.mod_upper_bound (length a) 8 ltac:(lia)) as Hr.
    rewrite Nat.Div0.add_mod, (Nat.mod_small pad) in Hmod by exact Hpad.
    generalize dependent (length a mod 8)%nat. intros r Hmod Hr.
    destruct (Nat.eq_dec r 0) as [->|Hr0].
    - rewrite Nat.add_0_l, Nat.mod_small in Hmod by exact Hpad. now subst pad.
    - rewrite (Nat.mod_small (8 - r)) by lia.
      assert (r + pad = 8)%nat as Hsum; [|lia].
      destruct (Nat.lt_ge_cases (r + pad) 8) as [Hlt|Hge].
      + rewrite Nat.mod_small in Hmod by exact Hlt. lia.
      + replace (r + pad)%nat with ((r + pad - 8) + 1 * 8)%nat in Hmod by lia.
        rewrite Nat.Div0.mod_add, Nat.mod_small in Hmod by lia. lia. }
  rewrite <- Hexact. unfold rpm.appendAlignedTo8Byte. rewrite Heq, <- app_assoc.
  split; [reflexivity|]. split; [exact Hpad|]. split; [exact Hmod|]. split.
  - intros Ha. rewrite Hexact, Ha. reflexivity.
  - rewrite !length_app, repeat_length. lia.
Qed.

Lemma archMap_injective (a1 a2 : Architecture) :
  rpm.archMap a1 = rpm.archMap a2 -> a1 = a2.
Proof. destruct a1, a2; simpl; intros H; try reflexivity; discriminate H. Qed.

Lemma append_length (s t : string) :
  String.length (s +:+ t) = (String.length s + String.length t)%nat.
Proof.
  induction s as [|c s IH]; [reflexivity|].
  rewrite append_cons. cbn [String.length]. now rewrite IH.
Qed.

Lemma append_cancel_r (s t u : string) : s +:+ u = t +:+ u -> s = t.
Proof.
  revert t. induction s as [|c s IH]; intros [|d t] Hst; try reflexivity.
  - apply (f_equal String.length) in Hst.
    rewrite !append_length in Hst. cbn [String.length] in Hst.
    generalize dependent (String.length u). intros; lia.
  - apply (f_equal String.length) in Hst.
    rewrite !append_length in Hst. cbn [String.length] in Hst.
    generalize dependent (String.length u). intros; lia.
  - rewrite !append_cons in Hst. injection Hst as -> Hst.
    f_equal. now apply IH.
Qed.

Lemma append_cancel_l (s t u : string) : s +:+ t = s +:+ u -> t = u.
Proof.
  induction s as [|c s IH]; intros H; [exact H|].
  rewrite !append_cons in H. injection H as H. now apply IH.
Qed.

(** X2: the two architecture tables of the RPM generator agree, and the
    recommended file name tells the architectures apart: two packages
    that differ in their architecture only have different file names;
    the architecture id is 0 exactly for [noarch], 1 exactly for the two
    x86 names, and 12 for every other architecture. *)
Theorem rpm_file_name_tells_architecture (pkg : Package) (a1 a2 : Architecture) :
  (rpm.RecommendedFileName (setArchitecture pkg a1)
   = rpm.RecommendedFileName (setArchitecture pkg a2) <-> a1 = a2)
  /\ (rpm.archIDMap a1 = 0%N <-> rpm.archMap a1 = "noarch")
  /\ (rpm.archIDMap a1 = 1%N <-> rpm.archMap a1 = "i686" \/ rpm.archMap a1 = "x86_64")
  /\ (rpm.archIDMap a1 = 0%N \/ rpm.archIDMap a1 = 1%N \/ rpm.archIDMap a1 = 12%N).
Proof.
  split; [split|].
  - unfold rpm.RecommendedFileName. cbn [Name Architecture_ setArchitecture].
    change (rpm.fullVersionString (setArchitecture pkg a1))
      with (rpm.fullVersionString pkg).
    change (rpm.fullVersionString (setArchitecture pkg a2))
      with (rpm.fullVersionString pkg).
    intros H. apply archMap_injective.
    do 4 apply append_cancel_l in H. now apply append_cancel_r in H.
  - now intros ->.
  - destruct a1; simpl; (split; [|split]);
      try (split; intros H; try discriminate; try reflexivity;
           try (destruct H as [H|H]; discriminate); auto; fail);
      auto.
Qed.

(** ** File names *)

Lemma ContainsAny_append (s t : string) (chars : list ascii) :
  gostrings.ContainsAny (s +:+ t) chars
  = gostrings.ContainsAny s chars || gostrings.ContainsAny t chars.
Proof.
  induction s as [|c s IH]; [reflexivity|].
  rewrite append_cons. cbn [gostrings.ContainsAny]. now rewrite IH, orb_assoc.
Qed.

Lemma ContainsAny_digits (d : Decimal.uint) :
  gostrings.ContainsAny (NilEmpty.string_of_uint d) pathSeparatorsAndSpace = false.
Proof.
  induction d as [|d IH|d IH|d IH|d IH|d IH|d IH|d IH|d IH|d IH|d IH];
    [reflexivity|..]; cbn [NilEmpty.string_of_uint gostrings.ContainsAny];
    rewrite IH; reflexivity.
Qed.

Lemma ContainsAny_itoa (n : N) :
  gostrings.ContainsAny (gostrings.itoa n) pathSeparatorsAndSpace = false.
Proof.
  unfold gostrings.itoa, NilZero.string_of_uint.
  destruct (N.to_uint n); try reflexivity; apply ContainsAny_digits.
Qed.

Lemma ContainsAny_Replace (s : string) :
  gostrings.ContainsAny (gostrings.Replace s "-"%char "_"%char) pathSeparatorsAndSpace
  = gostrings.ContainsAny s pathSeparatorsAndSpace.
Proof.
  induction s as [|c s IH]; [reflexivity|].
  cbn [gostrings.Replace gostrings.ContainsAny]. rewrite IH. f_equal.
  destruct (Ascii.eqb c "-") eqn:Hc; [|reflexivity].
  apply Ascii.eqb_eq in Hc. subst c. reflexivity.
Qed.

Lemma pacman_fullVersionString_plain (pkg : Package) :
  gostrings.ContainsAny (pacman.fullVersionString pkg) pathSeparatorsAndSpace
  = gostrings.ContainsAny (Version pkg) pathSeparatorsAndSpace.
Proof.
  unfold pacman.fullVersionString. cbv zeta.
  destruct (0 <? Epoch pkg)%N;
    rewrite !ContainsAny_append, ?ContainsAny_itoa, ContainsAny_Replace;
    cbn [gostrings.ContainsAny existsb pathSeparatorsAndSpace orb];
    now rewrite ?orb_false_r.
Qed.

Lemma pacman_fs_RecommendedFileName_plain (pkg : Package) :
  gostrings.ContainsAny (pacman_fs.RecommendedFileName pkg) pathSeparatorsAndSpace
  = gostrings.ContainsAny (Name pkg) pathSeparatorsAndSpace
    || gostrings.ContainsAny (Version pkg) pathSeparatorsAndSpace.
Proof.
  unfold pacman_fs.RecommendedFileName.
  change (pacman_fs.fullVersionString pkg) with (pacman.fullVersionString pkg).
  rewrite !ContainsAny_append, pacman_fullVersionString_plain.
  cbn [gostrings.ContainsAny existsb pathSeparatorsAndSpace orb].
  now rewrite ?orb_false_r.
Qed.

(** X3: the file name that a generator recommends contains a path
    separator or white space (and is then refused by [Build]) exactly when
    the name or the version of the package does: the release, the epoch,
    the architecture and the fixed parts of the name never contribute
    one.  This holds for the RPM generator and for both revisions of the
    Pacman generator. *)
Theorem recommended_file_name_is_plain (pkg : Package) :
  let bad s := gostrings.ContainsAny s pathSeparatorsAndSpace in
  bad (rpm.RecommendedFileName pkg) = bad (Name pkg) || bad (Version pkg)
  /\ bad (pacman.RecommendedFileName pkg) = bad (Name pkg) || bad (Version pkg)
  /\ bad (pacman_fs.RecommendedFileName pkg) = bad (Name pkg) || bad (Version pkg).
Proof.
  cbv zeta. split; [|split].
  - unfold rpm.RecommendedFileName, rpm.fullVersionString, rpm.versionString.
    destruct (0 <? Epoch pkg)%N;
      rewrite !ContainsAny_append, ?ContainsAny_itoa;
      (replace (gostrings.ContainsAny (rpm.archMap (Architecture_ pkg))
                  pathSeparatorsAndSpace) with false
         by (destruct (Architecture_ pkg); reflexivity));
      cbn [gostrings.ContainsAny existsb pathSeparatorsAndSpace orb];
      now rewrite ?orb_false_r.
  - exact (pacman_fs_RecommendedFileName_plain pkg).
  - exact (pacman_fs_RecommendedFileName_plain pkg).
Qed.

(** ** What [Build] writes *)

Section OutputProperties.
Context {World : Type}.
Implicit Types (sys : System.t World) (generator : Generator.t World).
Implicit Types (st : State World).

Lemma output_cases sys generator (printToStdout : bool) (pkgBytes : list byte) st
    (r : result unit) st' :
  output sys generator printToStdout pkgBytes st = (r, st') ->
  let pkgFile := Generator.RecommendedFileName generator (pkg st) in
  (printToStdout = false
   /\ gostrings.ContainsAny pkgFile pathSeparatorsAndSpace = true
   /\ st' = st
   /\ r = Abort (OtherError ("Unexpected filename generated: "
                             +:+ DQUOTE +:+ pkgFile +:+ DQUOTE)))
  \/ (exists err w,
        st' = {| pkg := pkg st; world := w;
                 trace := trace st
                          ++ [(outputCall printToStdout pkgFile pkgBytes, err)] |}
        /\ r = match err with Some e => Abort e | None => Done tt end
        /\ (printToStdout = false
            -> gostrings.ContainsAny pkgFile pathSeparatorsAndSpace = false)).
Proof.
  unfold output. intros Hrun. cbv zeta. destruct printToStdout.
  - apply system_inv in Hrun as (err & w & _ & -> & ->).
    right. exists err, w. repeat split. discriminate.
  - apply bind_inv in Hrun as [(e & [=] & _)|(p & st0 & [= <- <-] & Hrun)].
    destruct (gostrings.ContainsAny _ _) eqn:Hbad.
    + injection Hrun as <- <-. left. repeat split.
    + apply system_inv in Hrun as (err & w & _ & -> & ->).
      right. exists err, w. repeat split.
Qed.

Lemma fallback_done sys generator (rootPath : string) (buildReproducibly : bool) st
    (pkgBytes : list byte) st' :
  fallback sys generator rootPath buildReproducibly st = (Done pkgBytes, st') ->
  exists w0 w1,
    Generator.Build generator (pkg st) rootPath buildReproducibly w0
    = ((pkgBytes, None), (pkg st', w1)).
Proof.
  unfold fallback. intros Hrun.
  apply bind_inv in Hrun as [(e & _ & [=])|([] & st1 & Hsys & Hrun)].
  apply system_inv in Hsys as (err & w1 & _ & -> & _).
  apply bind_inv in Hrun as [(e & _ & [=])|([] & st2 & Hmat & Hrun)].
  apply materializeFSEntries_run in Hmat as (Hpkg & _). cbn [pkg] in Hpkg.
  apply bind_inv in Hrun as [(e & _ & [=])|(built & st3 & Hgen & Hrun)].
  apply generate_inv in Hgen as (bytes & err' & p2 & w2 & Hbuild & -> & [= ->]).
  destruct err' as [e|]; [discriminate|].
  apply bind_inv in Hrun as [(e & _ & [=])|([] & st4 & Hsys & [= <- <-])].
  apply system_inv in Hsys as (err'' & w3 & _ & -> & _). cbn [pkg].
  rewrite Hpkg in Hbuild. eauto.
Qed.

(** X4: [Build] writes the package at most once, and only as its last
    call.  The call is a write to the standard output when [printToStdout]
    is set; otherwise it is a write, with permissions 0666, to the file
    that the generator recommends for the package as the build left it,
    and it is made only when that name holds no path separator and no
    white space.  The bytes written are bytes that [BuildInMemory] or the
    filesystem-rooted [Build] of the generator returned without an error.
    [Build] returns no error exactly when that write was made and returned
    none. *)
Theorem Build_writes_package_last (rangeOrder : gset string -> list string) sys generator
    (printToStdout buildReproducibly : bool) (p : Package) (w : World) :
  let run := Build rangeOrder sys generator printToStdout buildReproducibly (start p w) in
  let pkgFile := Generator.RecommendedFileName generator (pkg (snd run)) in
  exists events out,
    trace (snd run) = events ++ out
    /\ Forall (fun ev : Event => isOutputCall (fst ev) = false) events
    /\ ((out = [] /\ exists e, fst run = Abort e)
        \/ exists pkgBytes err,
             out = [(outputCall printToStdout pkgFile pkgBytes, err)]
             /\ fst run = match err with Some e => Abort e | None => Done tt end
             /\ (printToStdout = false
                 -> gostrings.ContainsAny pkgFile pathSeparatorsAndSpace = false)
             /\ ((exists p1 w1,
                    Generator.BuildInMemory generator (preprocess rangeOrder p)
                      buildReproducibly w = ((pkgBytes, None), (p1, w1)))
                 \/ exists p0 rootPath w0 w1,
                      Generator.Build generator p0 rootPath buildReproducibly w0
                      = ((pkgBytes, None), (pkg (snd run), w1)))).
Proof.
  cbv zeta. rewrite Build_run.
  destruct (Generator.BuildInMemory generator _ buildReproducibly w)
    as [[pkgBytes [[|msg]|]] [p1 w1]] eqn:Hmem.
  - destruct (bind _ _ _) as [r st'] eqn:Hrun. cbn [fst snd].
    apply bind_inv in Hrun as [(e & Hfb & ->)|(bytes & st1 & Hfb & Hout)].
    + apply fallback_run in Hfb as (events & resets & Htrace & Hcalls & _).
      cbn [trace] in Htrace. rewrite Htrace.
      eexists. exists []. rewrite app_nil_r. split; [reflexivity|]. split.
      * constructor; [reflexivity|]. eapply Forall_impl; [exact Hcalls|].
        intros [c o]. cbn [fst]. now destruct c.
      * left. eauto.
    + pose proof Hfb as Hdone. apply fallback_done in Hdone as (w0 & w2 & Hbuild).
      apply fallback_run in Hfb as (events & resets & Htrace & Hcalls & _).
      cbn [trace pkg] in Htrace, Hbuild.
      assert (Forall (fun ev : Event => isOutputCall (fst ev) = false) (trace st1))
        as Hbefore.
      { rewrite Htrace. constructor; [reflexivity|].
        eapply Forall_impl; [exact Hcalls|]. intros [c o]. cbn [fst]. now destruct c. }
      apply output_cases in Hout as [(_ & _ & -> & ->)|(err & w3 & -> & -> & Hname)].
      * exists (trace st1), []. rewrite app_nil_r. split; [reflexivity|].
        split; [exact Hbefore|]. left. eauto.
      * cbn [trace pkg]. exists (trace st1). eexists. split; [reflexivity|].
        split; [exact Hbefore|]. right. exists bytes, err.
        split; [reflexivity|]. split; [reflexivity|]. split; [exact Hname|].
        right. eauto.
  - cbn [fst snd trace]. eexists. exists []. rewrite app_nil_r. split; [reflexivity|].
    split; [now repeat constructor|]. left. eauto.
  - destruct (output _ _ _ _ _) as [r st'] eqn:Hout. cbn [fst snd].
    apply output_cases in Hout as [(_ & _ & -> & ->)|(err & w3 & -> & -> & Hname)];
      cbn [trace pkg] in *.
    + eexists. exists []. rewrite app_nil_r. split; [reflexivity|].
      split; [now repeat constructor|]. left. eauto.
    + eexists [_]. eexists. split; [reflexivity|].
      split; [now repeat constructor|]. right. exists pkgBytes, err.
      split; [reflexivity|]. split; [reflexivity|]. split; [exact Hname|].
      left. eauto.
Qed.

End OutputProperties.

Section PacmanOutput.
Context {World : Type}.
Implicit Types (sys : System.t World) (generator : Generator.t World).

Lemma preprocess_keeps_file_name (rangeOrder : gset string -> list string) (p : Package) :
  pacman_fs.RecommendedFileName (preprocess rangeOrder p)
  = pacman_fs.RecommendedFileName p.
Proof.
  unfold preprocess, postponeUnmaterializableFSMetadata.
  destruct (postponeWalk "" (FSRoot (doMagicalHoloIntegration rangeOrder p))).
  unfold doMagicalHoloIntegration.
  destruct (size (collectPlugins p) =? 0)%nat; reflexivity.
Qed.

(** X5: with the filesystem-rooted Pacman generator, whose [Build] leaves
    the package as it is, [Build] without [printToStdout] returns no error
    only when the name and the version of the package hold no path
    separator and no white space, and its last call then wrote the file
    named after the package as it was given, before the pre-processing,
    with permissions 0666.  When the name or the version holds such a
    byte, [Build] returns an error and writes nothing, although it
    attempts the whole build first. *)
Theorem pacman_fs_package_file (rangeOrder : gset string -> list string) sys generator
    (buildReproducibly : bool) (p : Package) (w : World) :
  Generator.BuildInMemory generator = pacman_fs.BuildInMemory ->
  Generator.RecommendedFileName generator = pacman_fs.RecommendedFileName ->
  (forall p0 rootPath b w0,
     fst (snd (Generator.Build generator p0 rootPath b w0)) = p0) ->
  let run := Build rangeOrder sys generator false buildReproducibly (start p w) in
  let bad := gostrings.ContainsAny (Name p) pathSeparatorsAndSpace
             || gostrings.ContainsAny (Version p) pathSeparatorsAndSpace in
  (fst run = Done tt ->
   bad = false
   /\ exists events pkgBytes,
        trace (snd run)
        = events ++ [(CallWriteFile (pacman_fs.RecommendedFileName p) pkgBytes 438, None)])
  /\ (bad = true ->
      (exists e, fst run = Abort e)
      /\ Forall (fun ev : Event => isOutputCall (fst ev) = false) (trace (snd run))
      /\ exists o rest,
           trace (snd run)
           = (CallBuildInMemory buildReproducibly, Some UnsupportedBuildMethodError)
               :: (CallRemoveAll (rootPathOf p), o) :: rest).
Proof.
  intros Hmem Hname Hkeep. cbv zeta. rewrite Build_run, Hmem.
  unfold pacman_fs.BuildInMemory.
  destruct (preprocess_keeps_identity rangeOrder p) as [Hn Hv].
  replace (rootPathOf (preprocess rangeOrder p)) with (rootPathOf p)
    by (unfold rootPathOf; now rewrite Hn, Hv).
  destruct (bind _ _ _) as [r st'] eqn:Hrun. cbn [fst snd].
  apply bind_inv in Hrun as [(e & Hfb & ->)|(bytes & st1 & Hfb & Hout)].
  - pose proof Hfb as Hfirst.
    apply fallback_begins_by_removing_root in Hfirst as (o & rest & Hfirst).
    apply fallback_run in Hfb as (events & resets & Htrace & Hcalls & _).
    cbn [trace app] in Htrace, Hfirst. split; [discriminate|].
    intros _. split; [eauto|]. split; [|rewrite Hfirst; eauto].
    rewrite Htrace. constructor; [reflexivity|].
    eapply Forall_impl; [exact Hcalls|]. intros [c o']. cbn [fst]. now destruct c.
  - pose proof Hfb as Hfirst.
    apply fallback_begins_by_removing_root in Hfirst as (o & rest & Hfirst).
    pose proof Hfb as Hdone. apply fallback_done in Hdone as (w0 & w1 & Hbuild).
    apply fallback_run in Hfb as (events & resets & Htrace & Hcalls & _).
    cbn [trace pkg app] in Htrace, Hbuild, Hfirst.
    assert (pkg st1 = preprocess rangeOrder p) as Hpkg
      by (rewrite <- (Hkeep (preprocess rangeOrder p) (rootPathOf p) buildReproducibly w0);
          now rewrite Hbuild).
    apply output_cases in Hout as [(_ & Hbad & -> & ->)|(err & w3 & -> & -> & Hplain)];
      rewrite Hpkg, Hname, preprocess_keeps_file_name in *.
    + rewrite pacman_fs_RecommendedFileName_plain in Hbad.
      split; [discriminate|]. intros _. split; [eauto|].
      split; [|rewrite Hfirst; eauto].
      rewrite Htrace. constructor; [reflexivity|].
      eapply Forall_impl; [exact Hcalls|]. intros [c o']. cbn [fst]. now destruct c.
    + specialize (Hplain eq_refl).
      rewrite pacman_fs_RecommendedFileName_plain in Hplain. split.
      * intros Hdone. destruct err as [e|]; [discriminate|].
        split; [exact Hplain|]. now exists (trace st1), bytes.
      * intros Hbad. rewrite Hbad in Hplain. discriminate.
Qed.

End PacmanOutput.

Lemma pacman_fs_generator_keeps_package `{pacman_fs.Helpers} {World : Type}
    (os : pacman_fs.Os World) (env : pacman_fs.Env) (validate : Package -> list error)
    (p : Package) (rootPath : string) (buildReproducibly : bool)
    (s : World * list pacman_fs.OsEvent) :
  fst (snd (Generator.Build (pacman_fs.generator os env validate)
              p rootPath buildReproducibly s)) = p.
Proof.
  cbn [Generator.Build pacman_fs.generator].
  now destruct (pacman_fs.Build os env p rootPath buildReproducibly s).
Qed.

Lemma pacman_fs_package_file_witness :
  let run :=
    Build elements (samples.logged (samples.system false)) samples.pacmanGenerator
      false true (start samples.twoPlugins ([], [])) in
  let bad := gostrings.ContainsAny (Name samples.twoPlugins) pathSeparatorsAndSpace
             || gostrings.ContainsAny (Version samples.twoPlugins) pathSeparatorsAndSpace in
  (fst run = Done tt ->
   bad = false
   /\ exists events pkgBytes,
        trace (snd run)
        = events ++ [(CallWriteFile (pacman_fs.RecommendedFileName samples.twoPlugins)
                        pkgBytes 438, None)])
  /\ (bad = true ->
      (exists e, fst run = Abort e)
      /\ Forall (fun ev : Event => isOutputCall (fst ev) = false) (trace (snd run))
      /\ exists o rest,
           trace (snd run)
           = (CallBuildInMemory true, Some UnsupportedBuildMethodError)
               :: (CallRemoveAll (rootPathOf samples.twoPlugins), o) :: rest).
Proof.
  apply (pacman_fs_package_file elements (samples.logged (samples.system false))
           samples.pacmanGenerator true samples.twoPlugins ([], [])).
  - reflexivity.
  - reflexivity.
  - intros p0 rootPath b w0. apply pacman_fs_generator_keeps_package.
Defined.

(** The sample package built with the Pacman generator on the sample disk:
    [Build] falls back to the filesystem-rooted build, the generator makes
    all its calls in the materialized root directory, and the package is
    written under its recommended name. *)
Example pacman_package_on_sample_disk :
  let root := "./holo-build-sample-1.2-3" in
  let run :=
    Build elements (samples.logged (samples.system false)) samples.pacmanGenerator
      false true (start samples.twoPlugins ([], [])) in
  fst run = Done tt
  /\ trace (snd run)
     = [(CallBuildInMemory true, Some UnsupportedBuildMethodError);
        (CallRemoveAll root, None);
        (CallMaterialize root, None);
        (CallWalkFunc root, None); (CallResetTimestamp root, None);
        (CallWalkFunc (root +:+ "/etc"), None);
        (CallResetTimestamp (root +:+ "/etc"), None);
        (CallBuild root true, None);
        (CallRemoveAll root, None);
        (CallWriteFile "sample-1.2_3-4-any.pkg.tar.xz" [xfd; x37; x7a] 438, None)]
  /\ exists contents,
       pacman_fs.pkginfo (H := samples.fsHelpers) samples.fsEnv
         (preprocess elements samples.twoPlugins) true = Done contents
       /\ map fst (snd (world (snd run)))
          = pacman_fs.stages samples.os (preprocess elements samples.twoPlugins) root true
              contents ["./etc"; "./.PKGINFO"].
Proof.
  cbv zeta. split; [vm_compute; reflexivity|]. split; [vm_compute; reflexivity|].
  eexists. split; vm_compute; reflexivity.
Qed.

(** ** The plugin ids of the Holo integration *)

(** The first element of a split has no separator, and the string is that
    element alone or that element, the separator and what the other
    elements are the split of. *)
Lemma Split_head (s : string) (sep : ascii) :
  exists part parts,
    gostrings.Split s sep = part :: parts
    /\ gostrings.ContainsAny part [sep] = false
    /\ ((s = part /\ parts = [])
        \/ exists more, s = part +:+ String sep more /\ parts = gostrings.Split more sep).
Proof.
  induction s as [|c s IH].
  - exists "", []. repeat split. now left.
  - cbn [gostrings.Split]. destruct (Ascii.eqb c sep) eqn:Hc.
    + apply Ascii.eqb_eq in Hc. subst c.
      exists "", (gostrings.Split s sep). repeat split. right. now exists s.
    + destruct IH as (part & parts & -> & Hno & Hs).
      exists (String c part), parts. split; [reflexivity|]. split.
      * cbn [gostrings.ContainsAny existsb]. now rewrite Hc, Hno.
      * destruct Hs as [[-> ->]|(more & -> & ->)]; [now left|].
        right. exists more. now rewrite append_cons.
Qed.

(** Under the provisioning prefix the split of a path has more than four
    elements, and the fifth is a plugin id that the path lies under. *)
Lemma Split_prefixed (path : string) :
  gostrings.HasPrefix path "/usr/share/holo/" = true ->
  exists pluginID,
    (4 <? length (gostrings.Split path "/"%char))%nat = true
    /\ nth 4 (gostrings.Split path "/"%char) "" = pluginID
    /\ underPlugin pluginID path.
Proof.
  intros Hprefix. apply HasPrefix_inv in Hprefix as [rest ->].
  change ("/usr/share/holo/" +:+ rest)
    with ("" +:+ String "/"%char
            ("usr" +:+ String "/"%char
               ("share" +:+ String "/"%char
                  ("holo" +:+ String "/"%char rest)))).
  rewrite !(fun part H => proj2 (Split_part part "/"%char H)) by reflexivity.
  destruct (Split_head rest "/"%char) as (part & parts & -> & Hno & Hrest).
  exists part. split; [reflexivity|]. split; [reflexivity|].
  split; [exact Hno|].
  destruct Hrest as [[-> ->]|(more & -> & ->)].
  - exists "". rewrite append_nil_r. split; [reflexivity | now left].
  - exists (String "/"%char more). split; [reflexivity|]. right. now exists more.
Qed.

Lemma notePlugin_cases (plugins : gset string) (visit : string * FSNode) :
  (gostrings.HasPrefix (fst visit) "/usr/share/holo/" = false
   /\ notePlugin plugins visit = plugins)
  \/ exists pluginID,
       underPlugin pluginID (fst visit)
       /\ notePlugin plugins visit = {[ pluginID ]} ∪ plugins.
Proof.
  unfold notePlugin.
  destruct (gostrings.HasPrefix (fst visit) "/usr/share/holo/") eqn:Hprefix;
    [|now left].
  right. apply Split_prefixed in Hprefix as (pluginID & -> & -> & Hunder).
  now exists pluginID.
Qed.

Lemma foldl_notePlugin_sound (visits : list (string * FSNode)) (plugins : gset string)
    (pluginID : string) :
  pluginID ∈ foldl notePlugin plugins visits ->
  pluginID ∈ plugins
  \/ exists visit, In visit visits /\ underPlugin pluginID (fst visit).
Proof.
  revert plugins. induction visits as [|visit visits IH]; intros plugins Hin.
  - now left.
  - cbn [foldl] in Hin. apply IH in Hin as [Hin|(v & Hv & Hunder)].
    + destruct (notePlugin_cases plugins visit) as [[_ Heq]|(id & Hunder & Heq)];
        rewrite Heq in Hin; [now left|].
      apply elem_of_union in Hin as [Hin|Hin]; [|now left].
      apply elem_of_singleton in Hin. subst id.
      right. exists visit. split; [now left | exact Hunder].
    + right. exists v. split; [now right | exact Hunder].
Qed.

Lemma collectPlugins_sound (pkg : Package) (pluginID : string) :
  pluginID ∈ collectPlugins pkg -> hasPlugin pkg pluginID.
Proof.
  intros Hin. apply foldl_notePlugin_sound in Hin as [Hin|Hin].
  - now apply not_elem_of_empty in Hin.
  - exact Hin.
Qed.

Lemma underPlugin_prefixed (pluginID path : string) :
  underPlugin pluginID path -> gostrings.HasPrefix path "/usr/share/holo/" = true.
Proof. intros (_ & rest & -> & _). apply HasPrefix_append. Qed.

(** X6: the plugin ids that [doMagicalHoloIntegration] collects are
    exactly those that a walked path lies under: the path is
    [/usr/share/holo/], the id, which holds no slash, and then nothing or a
    slash and more.  The test [len(pathParts) > 4] never fails under that
    prefix, so that every walked path with the prefix contributes an
    id. *)
Theorem collected_plugins_are_those_under_prefix (pkg : Package) (pluginID : string) :
  (pluginID ∈ collectPlugins pkg <-> hasPlugin pkg pluginID)
  /\ forall path,
       gostrings.HasPrefix path "/usr/share/holo/" = true ->
       (4 <? length (gostrings.Split path "/"%char))%nat = true.
Proof.
  split; [split|].
  - apply collectPlugins_sound.
  - apply collectPlugins_complete.
  - intros path Hprefix. now apply Split_prefixed in Hprefix as (id & Hlen & _).
Qed.

Lemma append_longer (prefix s : string) : prefix <> "" -> prefix +:+ s <> s.
Proof.
  intros Hne Heq. apply (f_equal String.length) in Heq.
  rewrite append_length in Heq. destruct prefix as [|c prefix]; [contradiction|].
  cbn [String.length] in Heq. generalize dependent (String.length s). intros; lia.
Qed.

(** X7: [doMagicalHoloIntegration] leaves the package as it is exactly
    when no walked path begins with [/usr/share/holo/]; this is so
    whatever the order of [range] is. *)
Theorem holo_integration_only_under_prefix (rangeOrder : gset string -> list string)
    (pkg : Package) :
  doMagicalHoloIntegration rangeOrder pkg = pkg
  <-> Forall (fun visit : string * FSNode =>
                gostrings.HasPrefix (fst visit) "/usr/share/holo/" = false)
             (WalkFSWithAbsolutePaths pkg).
Proof.
  split.
  - intros Hsame. apply List.Forall_forall. intros visit Hin.
    destruct (gostrings.HasPrefix (fst visit) "/usr/share/holo/") eqn:Hprefix;
      [exfalso|reflexivity].
    apply Split_prefixed in Hprefix as (pluginID & _ & _ & Hunder).
    assert (pluginID ∈ collectPlugins pkg) as Hfound
      by (apply collectPlugins_complete; now exists visit).
    rewrite (doMagicalHoloIntegration_found _ _ _ Hfound) in Hsame.
    apply (f_equal CleanupScript) in Hsame. cbn [CleanupScript setCleanupScript] in Hsame.
    rewrite <- append_assoc in Hsame.
    refine (append_longer ("holo apply" +:+ LF) (CleanupScript pkg) _ Hsame).
    rewrite append_cons. discriminate.
  - intros Hnone. unfold doMagicalHoloIntegration.
    destruct (Nat.eqb_spec (size (collectPlugins pkg)) 0) as [_|Hsize]; [reflexivity|].
    exfalso. apply Hsize. apply size_empty_iff, elem_of_equiv_empty. intros pluginID Hin.
    apply collectPlugins_sound in Hin as (visit & Hin & Hunder).
    apply underPlugin_prefixed in Hunder.
    rewrite List.Forall_forall in Hnone. rewrite (Hnone visit Hin) in Hunder. discriminate.
Qed.

(** ** The requirements that the Holo integration adds *)

Lemma existsb_named_app (name : string) (rels more : list PackageRelation) :
  existsb (fun rel => String.eqb (RelatedPackage rel) name) (rels ++ more)
  = existsb (fun rel => String.eqb (RelatedPackage rel) name) rels
    || existsb (fun rel => String.eqb (RelatedPackage rel) name) more.
Proof. apply existsb_app. Qed.

(** The loop over distinct plugin ids appends, in the order of the loop,
    one relation for every id whose relation is missing. *)
Lemma foldl_requirePlugin_added (order : list string) (rels : list PackageRelation) :
  NoDup order ->
  foldl requirePlugin rels order
  = rels ++ map (fun pluginID =>
                   {| RelatedPackage := "holo-" +:+ pluginID; Constraint := None |})
              (List.filter
                 (fun pluginID =>
                    negb (existsb (fun rel => String.eqb (RelatedPackage rel)
                                                ("holo-" +:+ pluginID)) rels))
                 order).
Proof.
  revert rels. induction order as [|pluginID order IH]; intros rels Hnodup.
  - cbn [foldl List.filter map]. now rewrite app_nil_r.
  - apply NoDup_cons in Hnodup as [Hnew Hnodup].
    cbn [foldl List.filter]. rewrite (IH _ Hnodup). unfold requirePlugin at 1 2.
    destruct (existsb _ rels) eqn:Hhas; cbn [negb]; [reflexivity|].
    cbn [map]. rewrite <- app_assoc. cbn [app]. do 3 f_equal.
    apply filter_ext_in. intros other Hother. f_equal.
    rewrite existsb_named_app. cbn [existsb RelatedPackage].
    destruct (String.eqb_spec ("holo-" +:+ pluginID) ("holo-" +:+ other)) as [E|_];
      [|now rewrite !orb_false_r].
    apply append_cancel_l in E. subst other.
    exfalso. apply Hnew. now apply list_elem_of_In.
Qed.

Lemma validRangeOrder_NoDup (rangeOrder : gset string -> list string)
    (plugins : gset string) :
  validRangeOrder rangeOrder -> NoDup (rangeOrder plugins).
Proof.
  intros Hvalid. rewrite (Hvalid plugins). apply NoDup_elements.
Qed.

(** X8: with an order of [range] that visits every plugin id once,
    [doMagicalHoloIntegration] appends to [Requires], in that order, one
    relation [holo-P] without a version constraint for every collected id
    [P] for which [Requires] names no [holo-P] yet.  For two such orders
    the results differ in the order of [Requires] at most: the lists are
    permutations of each other and every other field is the same. *)
Theorem holo_integration_up_to_order (order1 order2 : gset string -> list string)
    (pkg : Package) :
  validRangeOrder order1 -> validRangeOrder order2 ->
  let missing pluginID :=
    negb (existsb (fun rel => String.eqb (RelatedPackage rel) ("holo-" +:+ pluginID))
            (Requires pkg)) in
  let relation pluginID :=
    {| RelatedPackage := "holo-" +:+ pluginID; Constraint := None |} in
  Requires (doMagicalHoloIntegration order1 pkg)
  = Requires pkg ++ map relation (List.filter missing (order1 (collectPlugins pkg)))
  /\ Permutation (Requires (doMagicalHoloIntegration order1 pkg))
                 (Requires (doMagicalHoloIntegration order2 pkg))
  /\ setRequires (doMagicalHoloIntegration order1 pkg)
       (Requires (doMagicalHoloIntegration order2 pkg))
     = doMagicalHoloIntegration order2 pkg.
Proof.
  intros Hvalid1 Hvalid2. cbv zeta.
  assert (forall order, validRangeOrder order ->
            Requires (doMagicalHoloIntegration order pkg)
            = Requires pkg
              ++ map (fun pluginID =>
                        {| RelatedPackage := "holo-" +:+ pluginID; Constraint := None |})
                   (List.filter
                      (fun pluginID =>
                         negb (existsb (fun rel => String.eqb (RelatedPackage rel)
                                                     ("holo-" +:+ pluginID))
                                 (Requires pkg)))
                      (order (collectPlugins pkg)))) as Hadded.
  { intros order Hvalid. unfold doMagicalHoloIntegration.
    destruct (Nat.eqb_spec (size (collectPlugins pkg)) 0) as [Hsize|_].
    - apply size_empty_inv, leibniz_equiv in Hsize. rewrite Hsize.
      pose proof (Hvalid ∅) as Hperm. rewrite elements_empty in Hperm.
      apply Permutation_sym, Permutation_nil in Hperm. rewrite Hperm.
      cbn [List.filter map]. now rewrite app_nil_r.
    - cbn [Requires setCleanupScript setSetupScript setRequires].
      apply foldl_requirePlugin_added, validRangeOrder_NoDup, Hvalid. }
  split; [exact (Hadded order1 Hvalid1)|]. split.
  - rewrite (Hadded order1 Hvalid1), (Hadded order2 Hvalid2).
    apply Permutation_app_head, Permutation_map.
    assert (Permutation (order1 (collectPlugins pkg)) (order2 (collectPlugins pkg)))
      as Hperm
      by (etransitivity; [apply Hvalid1 | apply Permutation_sym, Hvalid2]).
    generalize Hperm. generalize (order1 (collectPlugins pkg)) (order2 (collectPlugins pkg)).
    clear. intros l1 l2 Hperm.
    induction Hperm as [|x l l' _ IH|x y l|l l' l'' _ IH1 _ IH2]; cbn [List.filter].
    + constructor.
    + destruct (negb _); [apply perm_skip, IH | exact IH].
    + destruct (negb _), (negb _); try reflexivity. apply perm_swap.
    + etransitivity; [exact IH1 | exact IH2].
  - unfold doMagicalHoloIntegration.
    destruct (size (collectPlugins pkg) =? 0)%nat; [now destruct pkg | reflexivity].
Qed.

Lemma holo_integration_up_to_order_witness :
  let order1 := elements in
  let order2 (plugins : gset string) := rev (elements plugins) in
  let pkg := samples.twoPlugins in
  let missing pluginID :=
    negb (existsb (fun rel => String.eqb (RelatedPackage rel) ("holo-" +:+ pluginID))
            (Requires pkg)) in
  let relation pluginID :=
    {| RelatedPackage := "holo-" +:+ pluginID; Constraint := None |} in
  Requires (doMagicalHoloIntegration order1 pkg)
  = Requires pkg ++ map relation (List.filter missing (order1 (collectPlugins pkg)))
  /\ Permutation (Requires (doMagicalHoloIntegration order1 pkg))
                 (Requires (doMagicalHoloIntegration order2 pkg))
  /\ setRequires (doMagicalHoloIntegration order1 pkg)
       (Requires (doMagicalHoloIntegration order2 pkg))
     = doMagicalHoloIntegration order2 pkg.
Proof.
  apply (holo_integration_up_to_order elements
           (fun plugins => rev (elements plugins)) samples.twoPlugins).
  - exact elements_is_valid.
  - exact reverse_elements_is_valid.
Defined.

(** ** The contents of [.PKGINFO] *)

(** X9: what the mode of the build changes in the [.PKGINFO] of the
    in-memory Pacman generator.  Either [compilePackageRequirements]
    fails and [writePKGINFO] returns its error in both modes, or the two
    files have the same lines but for two places: the first line, which
    names the version of holo-build outside the reproducible mode only,
    and the line [builddate] after the line [url], which only the
    non-reproducible file has.  All other lines are the same for every
    clock and version. *)
Theorem pkginfo_modes `{pacman.Helpers} (pkg : Package) :
  let head :=
    "pkgname = " +:+ Name pkg +:+ LF
    +:+ "pkgver = " +:+ pacman.fullVersionString pkg +:+ LF
    +:+ "pkgdesc = "
    +:+ gostrings.collapseSpace false (gostrings.TrimSpace (Description pkg)) +:+ LF
    +:+ "url = " +:+ LF in
  (exists err,
     pacman.compilePackageRequirements (Requires pkg) = Abort err
     /\ forall env buildReproducibly,
          pacman.pkginfo env pkg buildReproducibly = Abort err)
  \/ (exists tail,
        forall env,
          pacman.pkginfo env pkg true
          = Done ("# Generated by holo-build in reproducible mode" +:+ LF
                  +:+ head +:+ tail)
          /\ pacman.pkginfo env pkg false
             = Done ("# Generated by holo-build " +:+ pacman.VersionString env +:+ LF
                     +:+ head
                     +:+ "builddate = " +:+ gostrings.itoaZ (pacman.Now env) +:+ LF
                     +:+ tail)).
Proof.
  cbv zeta. unfold pacman.pkginfo. cbv zeta.
  destruct (pacman.compilePackageRequirements (Requires pkg)) as [requires|err].
  - right. cbn [negb].
    exists ((if String.eqb (Author pkg) "" then "packager = Unknown Packager" +:+ LF
             else "packager = " +:+ Author pkg +:+ LF)
            +:+ "size = " +:+ gostrings.itoa (pacman.InstalledSizeInBytes (FSRoot pkg)) +:+ LF
            +:+ "arch = any" +:+ LF
            +:+ "license = custom:none" +:+ LF
            +:+ pacman.compilePackageRelations "replaces" (Replaces pkg)
            +:+ pacman.compilePackageRelations "conflict" (Conflicts pkg)
            +:+ pacman.compilePackageRelations "provides" (Provides pkg)
            +:+ pacman.compileBackupMarkers pkg
            +:+ requires
            +:+ "makedepend = holo-build" +:+ LF
            +:+ "makepkgopt = !strip" +:+ LF
            +:+ "makepkgopt = docs" +:+ LF
            +:+ "makepkgopt = libtool" +:+ LF
            +:+ "makepkgopt = staticlibs" +:+ LF
            +:+ "makepkgopt = emptydirs" +:+ LF
            +:+ "makepkgopt = !zipman" +:+ LF
            +:+ "makepkgopt = !purge" +:+ LF
            +:+ "makepkgopt = !upx" +:+ LF
            +:+ "makepkgopt = !debug" +:+ LF).
    intros env. destruct (String.eqb (Author pkg) "");
      split; f_equal; now rewrite !append_assoc.
  - left. exists err. split; [reflexivity|]. intros env b. reflexivity.
Qed.


(** *** The description *)











(** ** The in-memory Pacman generator *)







(** *** The install script *)






(** ** Backup markers and the order of the files *)

Lemma Permutation_list_filter {A : Type} (keep : A -> bool) (l1 l2 : list A) :
  Permutation l1 l2 -> Permutation (List.filter keep l1) (List.filter keep l2).
Proof.
  intros Hperm.
  induction Hperm as [|x l l' _ IH|x y l|l l' l'' _ IH1 _ IH2]; cbn [List.filter].
  - constructor.
  - destruct (keep x); [apply perm_skip, IH | exact IH].
  - destruct (keep x), (keep y); try reflexivity. apply perm_swap.
  - etransitivity; [exact IH1 | exact IH2].
Qed.

Lemma Strings_Permutation (a b : list string) :
  Permutation a b -> gosort.Strings a = gosort.Strings b.
Proof.
  intros Hperm. unfold gosort.Strings.
  apply (StronglySorted_unique String.le _);
    try apply (StronglySorted_merge_sort _).
  now rewrite !merge_sort_Permutation.
Qed.

(** X15: the backup markers in [.PKGINFO] do not depend on the order in
    which the files are met: [sort.Strings] makes them the same text for
    two packages whose [FSEntries] are permutations of each other
    (filesystem-rooted revision), and for two packages whose trees are
    walked in different orders (in-memory revision). *)
Theorem backup_markers_ignore_order (pkg1 pkg2 : Package) :
  (Permutation (FSEntries pkg1) (FSEntries pkg2) ->
   pacman_fs.compileBackupMarkers pkg1 = pacman_fs.compileBackupMarkers pkg2)
  /\ (Permutation (WalkFSWithRelativePaths pkg1) (WalkFSWithRelativePaths pkg2) ->
      pacman.compileBackupMarkers pkg1 = pacman.compileBackupMarkers pkg2).
Proof.
  split; intros Hperm.
  - unfold pacman_fs.compileBackupMarkers, pacman_fs.backupMarkers. f_equal.
    apply Strings_Permutation. rewrite !foldl_noteBackup_entries.
    now apply Permutation_map, Permutation_list_filter.
  - unfold pacman.compileBackupMarkers, pacman.backupMarkers. f_equal.
    apply Strings_Permutation. rewrite !foldl_noteBackup.
    now apply Permutation_map, Permutation_list_filter, Permutation_map.
Qed.

(** ** The targets of the manifest *)

(** X14: the loop of [writeMTREE] over the entries of the root
    directory.  When [filepath.Rel] fails on an entry, its error is
    returned, and it is the first entry on which it fails.  Otherwise
    there is one target per entry, in the order of the entries; every
    target begins with [./]; and a target is the relative path itself when
    that begins with [./] and the relative path after [./] when it does
    not. *)
Theorem mtreeTargets_relative (rel : string -> result string) (entries : list string) :
  match pacman_fs.mtreeTargets rel entries with
  | Done targets =>
      Forall2 (fun entry target =>
                 exists relative,
                   rel entry = Done relative
                   /\ target = (if gostrings.HasPrefix relative "./" then relative
                                else "./" +:+ relative))
              entries targets
      /\ Forall (fun target => gostrings.HasPrefix target "./" = true) targets
  | Abort err =>
      exists before entry after,
        entries = before ++ entry :: after
        /\ rel entry = Abort err
        /\ Forall (fun earlier => exists relative, rel earlier = Done relative) before
  end.
Proof.
  induction entries as [|entry entries IH]; cbn [pacman_fs.mtreeTargets].
  - split; constructor.
  - destruct (rel entry) as [relative|err] eqn:Hrel.
    + destruct (pacman_fs.mtreeTargets rel entries) as [targets|err].
      * destruct IH as [Heach Hprefix]. split.
        -- constructor; [|exact Heach]. exists relative. split; [exact Hrel|].
           now destruct (gostrings.HasPrefix relative "./").
        -- constructor; [|exact Hprefix].
           destruct (gostrings.HasPrefix relative "./") eqn:Hp; cbn [negb];
             [exact Hp | apply HasPrefix_append].
      * destruct IH as (before & failing & after & -> & Hfail & Hbefore).
        exists (entry :: before), failing, after. split; [reflexivity|].
        split; [exact Hfail|]. constructor; [now exists relative | exact Hbefore].
    + exists [], entry, entries. split; [reflexivity|]. split; [exact Hrel | constructor].
Qed.

(** ** The materialized tree and its timestamps *)

Section Materialize.
Context {World : Type}.
Implicit Types (sys : System.t World) (st : State World).

Lemma resetTimestamps_cases sys (visits : list (string * option error)) st
    (r : result unit) st' :
  resetTimestamps sys visits st = (r, st') ->
  match r with
  | Done _ =>
      trace st' = trace st ++ resetsOf visits
      /\ Forall (fun visit => snd visit = None) visits
  | Abort e =>
      exists before path err after,
        visits = before ++ (path, err) :: after
        /\ Forall (fun visit => snd visit = None) before
        /\ trace st'
           = trace st ++ resetsOf before
             ++ match err with
                | Some _ => [(CallWalkFunc path, Some e)]
                | None => [(CallWalkFunc path, None); (CallResetTimestamp path, Some e)]
                end
        /\ (err = None \/ err = Some e)
  end.
Proof.
  revert st. induction visits as [|[path err] visits IH]; intros st Hrun.
  - injection Hrun as <- <-. rewrite app_nil_r. split; [reflexivity | constructor].
  - cbn [resetTimestamps] in Hrun.
    apply bind_inv in Hrun as [(e & [=] & _)|([] & st1 & [= <-] & Hrun)].
    destruct err as [cause|].
    + injection Hrun as <- <-. exists [], path, (Some cause), visits.
      split; [reflexivity|]. split; [constructor|]. split; [reflexivity | now right].
    + apply bind_inv in Hrun as [(e & Hsys & ->)|([] & st2 & Hsys & Hrun)];
        apply system_inv in Hsys as (err & w & _ & -> & Herr).
      * destruct err as [e'|]; [injection Herr as ->|discriminate].
        exists [], path, None, visits.
        split; [reflexivity|]. split; [constructor|]. cbn [trace resetsOf flat_map app].
        split; [now rewrite <- app_assoc | now left].
      * destruct err as [e'|]; [discriminate|]. apply IH in Hrun.
        destruct r as [[]|e].
        -- destruct Hrun as [Htrace Hall]. split; [|now constructor].
           rewrite Htrace. cbn [trace resetsOf flat_map fst app].
           now rewrite <- !app_assoc.
        -- destruct Hrun as (before & path' & err' & after & -> & Hall & Htrace & Herr').
           exists ((path, None) :: before), path', err', after.
           split; [reflexivity|]. split; [now constructor|]. split; [|exact Herr'].
           rewrite Htrace. cbn [trace resetsOf flat_map fst app].
           now rewrite <- !app_assoc.
Qed.

(** X16: the calls of [materializeFSEntries].  It calls [Materialize] on
    the tree of the package first, and returns its error without a further
    call.  Without the reproducible mode it makes no other call.  In the
    reproducible mode it walks the root directory as [Materialize] left it:
    when it returns no error, the walk met no error and the timestamp of
    every walked path was reset, in the order of the walk; when it returns
    one, the walk stopped at the first path that the walk could not access
    or whose timestamp could not be reset, after resetting the timestamps
    of all paths before.  The package is never changed. *)
Theorem materializeFSEntries_calls sys (rootPath : string) (buildReproducibly : bool) st :
  let run := materializeFSEntries sys rootPath buildReproducibly st in
  let materialized := System.Materialize sys (FSRoot (pkg st)) rootPath (world st) in
  let visits := System.FilepathWalk sys rootPath (snd materialized) in
  pkg (snd run) = pkg st
  /\ exists walk,
       trace (snd run) = trace st ++ (CallMaterialize rootPath, fst materialized) :: walk
       /\ match fst materialized, buildReproducibly, fst run with
          | Some cause, _, r => walk = [] /\ r = Abort cause
          | None, false, r => walk = [] /\ r = Done tt
          | None, true, Done _ =>
              walk = resetsOf visits /\ Forall (fun visit => snd visit = None) visits
          | None, true, Abort e =>
              exists before path err after,
                visits = before ++ (path, err) :: after
                /\ Forall (fun visit => snd visit = None) before
                /\ (err = None \/ err = Some e)
                /\ walk
                   = resetsOf before
                     ++ match err with
                        | Some _ => [(CallWalkFunc path, Some e)]
                        | None => [(CallWalkFunc path, None);
                                   (CallResetTimestamp path, Some e)]
                        end
          end.
Proof.
  cbv zeta.
  destruct (materializeFSEntries sys rootPath buildReproducibly st) as [r st'] eqn:Hrun.
  cbn [fst snd]. unfold materializeFSEntries in Hrun.
  apply bind_inv in Hrun as [(e & [=] & _)|(p & st0 & [= <- <-] & Hrun)].
  apply bind_inv in Hrun as [(e & Hsys & ->)|([] & st1 & Hsys & Hrun)];
    apply system_inv in Hsys as (err & w & Hmat & -> & Herr); rewrite Hmat;
    cbn [fst snd pkg trace].
  - destruct err as [cause|]; [injection Herr as ->|discriminate].
    split; [reflexivity|]. exists []. now destruct buildReproducibly.
  - destruct err as [cause|]; [discriminate|]. destruct buildReproducibly.
    + apply bind_inv in Hrun as [(e & [=] & _)|(w0 & st2 & [= <- <-] & Hrun)].
      pose proof Hrun as Hpkg. apply resetTimestamps_run in Hpkg as [Hpkg _].
      apply resetTimestamps_cases in Hrun. cbn [trace world pkg] in Hrun, Hpkg.
      split; [exact Hpkg|]. destruct r as [[]|e].
      * destruct Hrun as [Htrace Hall]. exists (resetsOf (System.FilepathWalk sys rootPath w)).
        rewrite Htrace, <- app_assoc. now split.
      * destruct Hrun as (before & path & err & after & Hvisits & Hall & Htrace & Herr').
        eexists. rewrite Htrace, <- app_assoc. split; [reflexivity|].
        exists before, path, err, after. now repeat split.
    + injection Hrun as <- <-. split; [reflexivity|]. exists []. now split.
Qed.

End Materialize.

(** ** The dash in the version string *)

Lemma itoa_no_dash (n : N) :
  gostrings.ContainsAny (gostrings.itoa n) ["-"%char] = false.
Proof.
  unfold gostrings.itoa, NilZero.string_of_uint.
  assert (forall d, gostrings.ContainsAny (NilEmpty.string_of_uint d) ["-"%char] = false)
    as Hdigits.
  { induction d as [|d IH|d IH|d IH|d IH|d IH|d IH|d IH|d IH|d IH|d IH];
      [reflexivity|..]; cbn [NilEmpty.string_of_uint gostrings.ContainsAny];
      rewrite IH; reflexivity. }
  destruct (N.to_uint n); try reflexivity; apply Hdigits.
Qed.

Lemma Replace_no_dash (s : string) :
  gostrings.ContainsAny (gostrings.Replace s "-"%char "_"%char) ["-"%char] = false.
Proof.
  induction s as [|c s IH]; [reflexivity|].
  cbn [gostrings.Replace gostrings.ContainsAny existsb]. rewrite IH.
  destruct (Ascii.eqb_spec c "-") as [->|Hc]; [reflexivity|].
  destruct (Ascii.eqb_spec c "-"); [contradiction | reflexivity].
Qed.

Lemma Replace_without (s : string) (old new : ascii) :
  gostrings.ContainsAny s [old] = false -> gostrings.Replace s old new = s.
Proof.
  induction s as [|c s IH]; [reflexivity|].
  cbn [gostrings.ContainsAny existsb gostrings.Replace]. rewrite orb_false_r.
  intros [Hc Hs]%orb_false_iff. now rewrite Hc, IH.
Qed.

(** X17: the version string of a Pacman package holds exactly one dash:
    split at dashes, it has two parts, the version (with the epoch, and
    with underscores for its dashes) and the release.  When the version of
    the package holds no dash, the RPM generator gives the same version
    string. *)
Theorem pacman_pkgver_has_one_dash (pkg : Package) :
  gostrings.Split (pacman.fullVersionString pkg) "-"%char
  = [ (if (0 <? Epoch pkg)%N then gostrings.itoa (Epoch pkg) +:+ ":" else "")
      +:+ gostrings.Replace (Version pkg) "-"%char "_"%char;
      gostrings.itoa (Release pkg) ]
  /\ (gostrings.ContainsAny (Version pkg) ["-"%char] = false ->
      rpm.fullVersionString pkg = pacman.fullVersionString pkg).
Proof.
  split.
  - assert (pacman.fullVersionString pkg
            = ((if (0 <? Epoch pkg)%N then gostrings.itoa (Epoch pkg) +:+ ":" else "")
               +:+ gostrings.Replace (Version pkg) "-"%char "_"%char)
              +:+ String "-"%char (gostrings.itoa (Release pkg))) as ->.
    { unfold pacman.fullVersionString. cbv zeta.
      destruct (0 <? Epoch pkg)%N; [|reflexivity]. now rewrite !append_assoc. }
    assert (gostrings.ContainsAny
              ((if (0 <? Epoch pkg)%N then gostrings.itoa (Epoch pkg) +:+ ":" else "")
               +:+ gostrings.Replace (Version pkg) "-"%char "_"%char)
              ["-"%char] = false) as Hversion.
    { rewrite ContainsAny_append, Replace_no_dash, orb_false_r.
      destruct (0 <? Epoch pkg)%N; [|reflexivity].
      now rewrite ContainsAny_append, itoa_no_dash. }
    rewrite (proj2 (Split_part _ "-"%char Hversion)).
    now rewrite (proj1 (Split_part _ "-"%char (itoa_no_dash _))).
  - intros Hplain. unfold rpm.fullVersionString, rpm.versionString,
      pacman.fullVersionString. cbv zeta.
    rewrite (Replace_without _ _ _ Hplain).
    destruct (0 <? Epoch pkg)%N; [|reflexivity]. now rewrite !append_assoc.
Qed.

(** ** The filesystem-rooted Pacman generator *)

Section RootedBuild.
Context {World : Type} `{pacman_fs.Helpers}.
Implicit Types (os : pacman_fs.Os World).










End RootedBuild.
